(** * blade/backend.py: the ninja rule-script generator

    A shallow embedding of [src/blade/backend.py].  The generator object
    [_NinjaFileHeaderGenerator] owns two mutable fields, the ordered text
    buffer [rules_buf] and the set [__all_rule_names]; its methods are
    embedded as computations in a state-and-exception monad over these two
    fields.  Configuration sections and the external collaborators (tool
    chain, console, [os.path], the shell probe) are inputs, gathered in the
    records [config] and [world]. *)

From Stdlib Require Import String Ascii List ZArith Lia Bool.
From stdpp Require Import base option list strings gmap pretty.

Local Open Scope string_scope.
Local Open Scope list_scope.
Local Open Scope Z_scope.

(** ** Python strings *)

(** The line feed and the double quote, written with their character codes. *)
Abbreviation nl := (String "010"%char EmptyString) (only parsing).
Abbreviation dq := (String "034"%char EmptyString) (only parsing).

(** [sep.join(l)] *)
Fixpoint py_join (sep : string) (l : list string) : string :=
  match l with
  | [] => ""
  | [x] => x
  | x :: r => x +:+ sep +:+ py_join sep r
  end.

(** [s.startswith(p)] *)
Fixpoint startswith (p s : string) : bool :=
  match p, s with
  | EmptyString, _ => true
  | String a p', String b s' => if Ascii.eqb a b then startswith p' s' else false
  | String _ _, EmptyString => false
  end.

(** [old in s] *)
Fixpoint contains (old s : string) : bool :=
  startswith old s ||
  match s with
  | EmptyString => false
  | String _ s' => contains old s'
  end.

(** [s.replace(old, new)] for a non-empty [old]: occurrences are replaced
    from the left and do not overlap; [skip] counts the characters of a
    match that are still to be dropped. *)
Fixpoint replace_from (old new : string) (skip : nat) (s : string) : string :=
  match s with
  | EmptyString => ""
  | String c s' =>
      match skip with
      | S k => replace_from old new k s'
      | O =>
          if startswith old s
          then new +:+ replace_from old new (String.length old - 1) s'
          else String c (replace_from old new 0 s')
      end
  end.

Definition py_replace (old new s : string) : string := replace_from old new 0 s.

(** [str(x)], as used by the [%s] conversion. *)
Class PyStr (A : Type) := py_str : A → string.
Global Instance string_py_str : PyStr string := λ s, s.
Global Instance Z_py_str : PyStr Z := λ n, pretty n.
Global Instance option_py_str `{PyStr A} : PyStr (option A) := λ o,
  match o with
  | Some a => py_str a
  | None => "None"
  end.

(** [bool(x)], the truth value tested by [if x:]. *)
Class Truthy (A : Type) := truthy : A → bool.
Global Instance bool_truthy : Truthy bool := λ b, b.
Global Instance string_truthy : Truthy string := λ s,
  match s with
  | EmptyString => false
  | String _ _ => true
  end.
Global Instance Z_truthy : Truthy Z := λ n, negb (n =? 0).
Global Instance list_truthy {A} : Truthy (list A) := λ l,
  match l with
  | [] => false
  | _ :: _ => true
  end.
Global Instance option_truthy `{Truthy A} : Truthy (option A) := λ o,
  match o with
  | Some a => truthy a
  | None => false
  end.

(** [os.path.join(a, b)] of [posixpath]. *)
Definition endswith_slash (s : string) : bool :=
  match String.length s with
  | O => false
  | S n => match String.get n s with
           | Some c => Ascii.eqb c "/"
           | None => false
           end
  end.

Definition os_path_join (a b : string) : string :=
  if startswith "/" b then b
  else if negb (truthy a) || endswith_slash a then a +:+ b
  else a +:+ "/" +:+ b.

(** ** Exceptions and the generator monad *)

Inductive py_error : Type :=
  | SystemExit (msg : string)
  | KeyError (key : string)
  | OSError.

Inductive result (A : Type) : Type :=
  | Ok (a : A)
  | Raise (e : py_error).
Arguments Ok {A} a.
Arguments Raise {A} e.

(** The two mutable fields of [_NinjaFileHeaderGenerator]. *)
Record generator : Type := Generator {
  rules_buf : list string;
  all_rule_names : gset string;
}.

(** [__init__]: an empty buffer and an empty set. *)
Definition init : generator := {| rules_buf := []; all_rule_names := ∅ |}.

Definition M (A : Type) : Type := generator → result (A * generator).

Global Instance M_ret : MRet M := λ A a st, Ok (a, st).
Global Instance M_bind : MBind M := λ A B f m st,
  match m st with
  | Ok (a, st') => f a st'
  | Raise e => Raise e
  end.

Definition raise {A} (e : py_error) : M A := λ _, Raise e.

(** Modelled from the spec: [console.fatal] of [blade/console.py], which is
    not part of the sources at hand.  The spec describes it as a hard,
    immediate fatal error that aborts generation: it never returns. *)
Definition console_fatal {A} (msg : string) : M A := raise (SystemExit msg).

(** [console.info] only writes to the terminal. *)
Definition console_info (msg : string) : M unit := mret tt.

(** ** The rule registry *)

(** [_add_rule]: [self.rules_buf.append('%s\n' % rule)] *)
Definition _add_rule (rule : string) : M unit := λ st,
  Ok (tt, {| rules_buf := rules_buf st ++ [rule +:+ nl];
             all_rule_names := all_rule_names st |}).

(** [self.__all_rule_names.add(name)] *)
Definition add_rule_name (name : string) : M unit := λ st,
  Ok (tt, {| rules_buf := rules_buf st;
             all_rule_names := {[ name ]} ∪ all_rule_names st |}).

(** [get_all_rule_names]: [list(self.__all_rule_names)] *)
Definition get_all_rule_names (st : generator) : list string :=
  elements (all_rule_names st).

(** Reading [self.rules_buf]. *)
Definition get_rules_buf : M (list string) := λ st, Ok (rules_buf st, st).

(** [if c: body] *)
Definition when (c : bool) (body : M unit) : M unit :=
  if c then body else mret tt.

(** [d[k]] on a dictionary: a missing key raises [KeyError]. *)
Definition py_getitem {V} (d : gmap string V) (k : string) : M V :=
  match d !! k with
  | Some v => mret v
  | None => raise (KeyError k)
  end.

(** ** Inputs of a generation pass *)

(** The command line options and the sections of [blade.config] that the
    generator reads.  An item that the code tests with [if x:] and that may
    be [None] or [''] is an [option string]; [link_jobs] is [None] or an
    integer. *)
Record config : Type := Config {
  (* self.options *)
  options_m : option string;
  options_profile : string;
  options_gprof : bool;
  options_coverage : bool;
  (* global_config *)
  debug_info_level : string;
  (* cc_config *)
  cc_debug_info_levels : gmap string (list string);
  cc_warnings : list string;
  cc_cxx_warnings : list string;
  cc_c_warnings : list string;
  cc_optimize : list string;
  cc_cflags : list string;
  cc_cxxflags : list string;
  cc_cppflags : list string;
  cc_linkflags : list string;
  cc_extra_incs : list string;
  cc_securecc : option string;
  (* cc_library_config *)
  cc_library_arflags : list string;
  (* link_config *)
  link_jobs : option Z;
  (* proto_library_config *)
  protoc : string;
  protoc_java : option string;
  protobuf_incs : list string;
  protobuf_java_incs : list string;
  protoc_go_plugin : option string;
  protoc_go_subplugins : list string;
  protobuf_go_path : string;
  (* go_config *)
  go_home : option string;
  go_config_go : option string;
  go_module_enabled : bool;
  go_module_relpath : option string;
  (* java_config, java_test_config, java_binary_config, scala_config *)
  java_home : option string;
  java_version : string;
  java_source_version : option string;
  java_target_version : option string;
  jacoco_home : option string;
  one_jar_boot_jar : string;
  scala_home : option string;
  (* thrift_config *)
  thrift_incs : list string;
  thrift_gen_params : string;
  thrift_config_thrift : string;
}.

(** [subprocess.call] returns the exit status of the child, or raises
    [OSError] when the child cannot be started. *)
Inductive call_outcome : Type :=
  | Returned (status : Z)
  | SpawnFailed.

(** [open], [writelines] and [close] on a file return, or raise [OSError]
    ([IOError] is the same class) when the file cannot be opened, written
    or closed. *)
Inductive io_outcome : Type :=
  | Done
  | IOFailed.

(** The collaborators outside this module: constructor arguments, the tool
    chain, the accelerator, the console, [os.path], [sys], [subprocess] and
    the file system. *)
Record world : Type := World {
  build_dir : string;
  blade_path : string;
  script_path : string;
  filter_cc_flags : list string → string → list string;
  get_cc : string;
  get_cc_version : string;
  get_cc_commands : string * string * string;
  build_jobs_num : Z;
  gen_targets_rules : list string;
  colored : string → string → string;
  os_path_abspath : string → string;
  os_path_normpath : string → string;
  os_path_relpath : string → string → string;
  sys_executable : string;
  load_scm : string → string * string;
  subprocess_call : string → call_outcome;
  fs_open : string → io_outcome;
  fs_writelines : string → list string → io_outcome;
  fs_close : string → io_outcome;
}.

(** [_incs_list_to_string] *)
Definition _incs_list_to_string (incs : list string) : string :=
  py_join " " (map (λ path, "-I " +:+ path) incs).

(** [protoc_import_path_option] *)
Definition protoc_import_path_option (incs : list string) : string :=
  py_join " " (map (λ inc, "-I=" +:+ inc) incs).

Section Generator.

Context (w : world) (cfg : config).

(** [_shell_support_pipefail]: the status of the probe is compared with
    zero; nothing catches the exception of a probe that cannot start. *)
Definition _shell_support_pipefail : M bool :=
  match subprocess_call w "set -o pipefail 2>/dev/null" with
  | Returned status => mret (status =? 0)
  | SpawnFailed => raise OSError
  end.

Definition generate_rule (name command : string)
    (description depfile : option string) (generator : bool)
    (pool : option string) (restat : bool)
    (rspfile rspfile_content deps : option string) : M unit :=
  add_rule_name name ;;
  _add_rule ("rule " +:+ name) ;;
  _add_rule ("  command = " +:+ command) ;;
  when (truthy description)
    (_add_rule ("  description = " +:+ colored w (default "" description) "dimpurple")) ;;
  when (truthy depfile)
    (_add_rule ("  depfile = " +:+ default "" depfile)) ;;
  when generator
    (_add_rule "  generator = 1") ;;
  when (truthy pool)
    (_add_rule ("  pool = " +:+ default "" pool)) ;;
  when restat
    (_add_rule "  restat = 1") ;;
  when (truthy rspfile)
    (_add_rule ("  rspfile = " +:+ default "" rspfile)) ;;
  when (truthy rspfile_content)
    (_add_rule ("  rspfile_content = " +:+ default "" rspfile_content)) ;;
  when (truthy deps)
    (_add_rule ("  deps = " +:+ default "" deps)) ;;
  _add_rule "".

Definition generate_file_header : M unit :=
  _add_rule ("# build.ninja generated by blade" +:+ nl +:+
             "ninja_required_version = 1.7" +:+ nl +:+
             "builddir = " +:+ build_dir w +:+ nl) ;;
  _add_rule ("pool heavy_pool" +:+ nl +:+
             "  depth = 1" +:+ nl).

Definition generate_common_rules : M unit :=
  generate_rule "copy" "cp -f ${in} ${out}" (Some "COPY ${in} ${out}")
    None false None false None None None.

(** [_get_cc_flags] *)
Definition _get_cc_flags : M (list string * list string) :=
  let '(cppflags, linkflags) :=
    if truthy (options_m cfg)
    then (["-m" +:+ py_str (options_m cfg)], ["-m" +:+ py_str (options_m cfg)])
    else ([], []) in
  let cppflags := cppflags ++ ["-pipe"; "-fno-omit-frame-pointer"] in
  debug_info_options ← py_getitem (cc_debug_info_levels cfg) (debug_info_level cfg) ;
  let cppflags := cppflags ++ debug_info_options in
  let cppflags :=
    if String.eqb (options_profile cfg) "debug" then cppflags ++ ["-fstack-protector"]
    else if String.eqb (options_profile cfg) "release" then cppflags ++ ["-DNDEBUG"]
    else cppflags in
  let cppflags := cppflags ++ ["-D_FILE_OFFSET_BITS=64";
                               "-D__STDC_CONSTANT_MACROS";
                               "-D__STDC_FORMAT_MACROS";
                               "-D__STDC_LIMIT_MACROS"] in
  let '(cppflags, linkflags) :=
    if options_gprof cfg then (cppflags ++ ["-pg"], linkflags ++ ["-pg"])
    else (cppflags, linkflags) in
  let '(cppflags, linkflags) :=
    if options_coverage cfg then (cppflags ++ ["--coverage"], linkflags ++ ["--coverage"])
    else (cppflags, linkflags) in
  let cppflags := filter_cc_flags w cppflags "" in
  mret (cppflags, linkflags).

(** [_get_warning_flags] *)
Definition _get_warning_flags : list string * list string * list string :=
  let cppflags := cc_warnings cfg in
  let cxxflags := cc_cxx_warnings cfg in
  let cflags := cc_c_warnings cfg in
  let filtered_cppflags := filter_cc_flags w cppflags "" in
  let filtered_cxxflags := filter_cc_flags w cxxflags "c++" in
  let filtered_cflags := filter_cc_flags w cflags "c" in
  (filtered_cppflags, filtered_cxxflags, filtered_cflags).

Definition generate_cc_vars : M unit :=
  let '(warnings, cxx_warnings, c_warnings) := _get_warning_flags in
  let c_warnings := c_warnings ++ warnings in
  let cxx_warnings := cxx_warnings ++ warnings in
  let optimize_flags := cc_optimize cfg in
  let optimize :=
    if String.eqb (options_profile cfg) "release" then "$optimize_flags" else "" in
  _add_rule ("c_warnings = " +:+ py_join " " c_warnings +:+ nl +:+
             "cxx_warnings = " +:+ py_join " " cxx_warnings +:+ nl +:+
             "optimize_flags = " +:+ py_join " " optimize_flags +:+ nl +:+
             "optimize = " +:+ optimize +:+ nl).

(** [_hdrs_command] *)
Definition _hdrs_command (cc : string) (flags cppflags : list string)
    (includes : string) : string :=
  let args := "-o /dev/null -E -H " +:+ py_join " " flags +:+ " " +:+
              py_join " " cppflags +:+ " -w ${cppflags} " +:+ includes +:+
              " ${includes} ${in} 2> ${out}" in
  let preprocess1 := cc +:+ " -fdirectives-only " +:+ args in
  let preprocess2 := cc +:+ " " +:+ args in
  preprocess1 +:+ " || " +:+ preprocess2.

(** [_builtin_command] *)
Definition _builtin_command (builder prefix suffix : string) : string :=
  let cmd := ["PYTHONPATH=" +:+ blade_path w +:+ ":$$PYTHONPATH"] in
  let cmd := if truthy prefix then cmd ++ [prefix] else cmd in
  let cmd := cmd ++ [sys_executable w +:+ " -m blade.builtin_tools " +:+ builder] in
  let cmd := if truthy suffix then cmd ++ [suffix] else cmd ++ ["${out} ${in}"] in
  py_join " " cmd.

(** The awk program of [generate_cc_rules]; ninja reads [$$] as [$]. *)
Definition awk_script : string :=
  "'BEGIN {stop=0} /^Multiple include guards may be useful for:/ {stop=1}" +:+
  " !stop {if ($$1 ~/^\.+$$/) print $$0; else print $$0 > " +:+ dq +:+
  "/dev/stderr" +:+ dq +:+ "}'".

(** The two values of [template] in [generate_cc_rules], as functions of
    the command that fills their [%s]. *)
Definition template (pipefail : bool) (command : string) : string :=
  if pipefail
  then "set -o pipefail && " +:+ command +:+ " -H 2>&1 | awk " +:+ awk_script +:+
       " > ${out}.H"
  else command +:+ " -H 2> ${out}.err && awk " +:+ awk_script +:+
       " < ${out}.err > ${out}.H && rm -f ${out}.err".

Definition generate_cc_rules : M unit :=
  let '(cc, cxx, ld) := get_cc_commands w in
  let cflags := cc_cflags cfg in
  let cxxflags := cc_cxxflags cfg in
  '(cppflags, ldflags) ← _get_cc_flags ;
  let cppflags := cc_cppflags cfg ++ cppflags in
  let arflags := py_join "" (cc_library_arflags cfg) in
  let ldflags := cc_linkflags cfg ++ ldflags in
  let includes := cc_extra_incs cfg in
  let includes := includes ++ ["."; build_dir w] in
  let includes := py_join " " (map (λ inc, "-I" +:+ inc) includes) in
  generate_cc_vars ;;
  pipefail ← _shell_support_pipefail ;
  let cc_command :=
    cc +:+ " -o ${out} -MMD -MF ${out}.d -c -fPIC " +:+ py_join " " cflags +:+
    " " +:+ py_join " " cppflags +:+ " ${optimize} ${c_warnings} ${cppflags} " +:+
    includes +:+ " ${includes} ${in}" in
  generate_rule "cc" (template pipefail cc_command) (Some "CC ${in}")
    (Some "${out}.d") false None false None None (Some "gcc") ;;
  let cxx_command :=
    cxx +:+ " -o ${out} -MMD -MF ${out}.d -c -fPIC " +:+ py_join " " cxxflags +:+
    " " +:+ py_join " " cppflags +:+ " ${optimize} ${cxx_warnings} ${cppflags} " +:+
    includes +:+ " ${includes} ${in}" in
  generate_rule "cxx" (template pipefail cxx_command) (Some "CXX ${in}")
    (Some "${out}.d") false None false None None (Some "gcc") ;;
  let securecc := py_str (cc_securecc cfg) +:+ " " +:+ cxx in
  generate_rule "securecccompile"
    (securecc +:+ " -o ${out} -c -fPIC " +:+ py_join " " cxxflags +:+ " " +:+
     py_join " " cppflags +:+ " ${optimize} ${cxx_warnings} ${cppflags} " +:+
     includes +:+ " ${includes} ${in}")
    (Some "SECURECC ${in}") None false None false None None None ;;
  generate_rule "securecc" (_builtin_command "securecc_object" "" "")
    (Some "SECURECC ${in}") None false None true None None None ;;
  generate_rule "ar" ("rm -f $out; ar " +:+ arflags +:+ " $out $in")
    (Some "AR ${out}") None false None false None None None ;;
  pool ←
    (if truthy (link_jobs cfg)
     then
       let link_jobs := Z.min (default 0 (link_jobs cfg)) (build_jobs_num w) in
       console_info ("Adjust parallel link jobs number to " +:+ py_str link_jobs) ;;
       let pool := "link_pool" in
       _add_rule ("pool " +:+ pool +:+ nl +:+
                  "  depth = " +:+ py_str link_jobs) ;;
       mret (Some pool)
     else mret None) ;
  generate_rule "link"
    (ld +:+ " -o ${out} " +:+ py_join " " ldflags +:+ " ${ldflags} ${in} ${extra_ldflags}")
    (Some "LINK ${out}") None false pool false None None None ;;
  generate_rule "solink"
    (ld +:+ " -o ${out} -shared " +:+ py_join " " ldflags +:+
     " ${ldflags} ${in} ${extra_ldflags}")
    (Some "SHAREDLINK ${out}") None false pool false None None None ;;
  generate_rule "strip" "strip --strip-unneeded -o ${out} ${in}"
    (Some "STRIP ${out}") None false None false None None None.

Definition generate_proto_rules : M unit :=
  let protoc := protoc cfg in
  let protoc_java := if truthy (protoc_java cfg) then default "" (protoc_java cfg) else protoc in
  let protobuf_incs := protoc_import_path_option (protobuf_incs cfg) in
  let protobuf_java_incs :=
    if truthy (protobuf_java_incs cfg)
    then protoc_import_path_option (protobuf_java_incs cfg)
    else protobuf_incs in
  _add_rule ("protocflags =" +:+ nl +:+
             "protoccpppluginflags =" +:+ nl +:+
             "protocjavapluginflags =" +:+ nl +:+
             "protocpythonpluginflags =" +:+ nl) ;;
  generate_rule "proto"
    (protoc +:+ " --proto_path=. " +:+ protobuf_incs +:+ " -I=`dirname ${in}` " +:+
     "--cpp_out=" +:+ build_dir w +:+ " ${protocflags} ${protoccpppluginflags} ${in}")
    (Some "PROTOC ${in}") None false None false None None None ;;
  generate_rule "protojava"
    (protoc_java +:+ " --proto_path=. " +:+ protobuf_java_incs +:+ " --java_out=" +:+
     build_dir w +:+ "/`dirname ${in}` " +:+ "${protocjavapluginflags} ${in}")
    (Some "PROTOCJAVA ${in}") None false None false None None None ;;
  generate_rule "protopython"
    (protoc +:+ " --proto_path=. " +:+ protobuf_incs +:+ " -I=`dirname ${in}` " +:+
     "--python_out=" +:+ build_dir w +:+ " ${protocpythonpluginflags} ${in}")
    (Some "PROTOCPYTHON ${in}") None false None false None None None ;;
  generate_rule "protodescriptors"
    (protoc +:+ " --proto_path=. " +:+ protobuf_incs +:+ " -I=`dirname ${first}` " +:+
     "--descriptor_set_out=${out} --include_imports " +:+
     "--include_source_info ${in}")
    (Some "PROTODESCRIPTORS ${in}") None false None false None None None ;;
  let protoc_go_plugin := protoc_go_plugin cfg in
  when (truthy protoc_go_plugin)
    (let go_home := go_home cfg in
     let go_module_enabled := go_module_enabled cfg in
     let go_module_relpath := go_module_relpath cfg in
     when (negb (truthy go_home))
       (console_fatal (dq +:+ "go_config.go_home" +:+ dq +:+ " is not configured")) ;;
     let outdir :=
       if go_module_enabled && negb (truthy go_module_relpath)
       then protobuf_go_path cfg
       else os_path_join (default "" go_home) "src" in
     let subplugins := protoc_go_subplugins cfg in
     let go_out :=
       if truthy subplugins
       then "plugins=" +:+ py_join "+" subplugins +:+ ":" +:+ outdir
       else outdir in
     generate_rule "protogo"
       (protoc +:+ " --proto_path=. " +:+ protobuf_incs +:+ " -I=`dirname ${in}` " +:+
        "--plugin=protoc-gen-go=" +:+ default "" protoc_go_plugin +:+
        " --go_out=" +:+ go_out +:+ " ${in}")
       (Some "PROTOCGOLANG ${in}") None false None false None None None).

Definition generate_resource_rules : M unit :=
  let args := "${name} ${path} ${out} ${in}" in
  generate_rule "resource_index" (_builtin_command "resource_index" "" args)
    (Some "RESOURCE INDEX ${out}") None false None false None None None ;;
  generate_rule "resource"
    ("xxd -i ${in} | " +:+
     "sed -e " +:+ dq +:+ "s/^unsigned char /const char RESOURCE_/g" +:+ dq +:+ " " +:+
     "-e " +:+ dq +:+ "s/^unsigned int /const unsigned int RESOURCE_/g" +:+ dq +:+
     " > ${out}")
    (Some "RESOURCE ${in}") None false None false None None None.

(** [get_java_command] *)
Definition get_java_command (cmd : string) : string :=
  let java_home := java_home cfg in
  if truthy java_home
  then os_path_join (os_path_join (default "" java_home) "bin") cmd
  else cmd.

(** [get_jacocoagent] *)
Definition get_jacocoagent : string :=
  let jacoco_home := jacoco_home cfg in
  if truthy jacoco_home
  then os_path_join (os_path_join (default "" jacoco_home) "lib") "jacocoagent.jar"
  else "".

Definition generate_javac_rules : M unit :=
  let javac := get_java_command "javac" in
  let jar := get_java_command "jar" in
  let cmd := [javac] in
  let version := java_version cfg in
  let source_version := default version (java_source_version cfg) in
  let target_version := default version (java_target_version cfg) in
  let cmd := if truthy source_version then cmd ++ ["-source " +:+ source_version] else cmd in
  let cmd := if truthy target_version then cmd ++ ["-target " +:+ target_version] else cmd in
  let cmd := cmd ++ ["-encoding ${source_encoding}";
                     "-d ${classes_dir}";
                     "-classpath ${classpath}";
                     "${javacflags}";
                     "${in}"] in
  _add_rule ("source_encoding = UTF-8" +:+ nl +:+
             "classpath = ." +:+ nl +:+
             "javacflags =" +:+ nl) ;;
  generate_rule "javac"
    ("rm -fr ${classes_dir} && mkdir -p ${classes_dir} && " +:+
     py_join " " cmd +:+ " && sleep 0.01 && " +:+
     jar +:+ " cf ${out} -C ${classes_dir} .")
    (Some "JAVAC ${out}") None false None false None None None.

Definition generate_java_resource_rules : M unit :=
  generate_rule "javaresource" (_builtin_command "java_resource" "" "")
    (Some "JAVA RESOURCE ${in}") None false None false None None None.

Definition generate_java_test_rules : M unit :=
  let jacocoagent := get_jacocoagent in
  let args := "--script=${out} --main_class=${mainclass} --jacocoagent=" +:+ jacocoagent +:+
              " " +:+ "--packages_under_test=${packages_under_test} ${in}" in
  generate_rule "javatest" (_builtin_command "java_test" "" args)
    (Some "JAVA TEST ${out}") None false None false None None None.

Definition generate_java_binary_rules : M unit :=
  let bootjar := one_jar_boot_jar cfg in
  let args := "--onejar=${out} --bootjar=" +:+ bootjar +:+
              " --main_class=${mainclass} ${in}" in
  generate_rule "onejar" (_builtin_command "java_onejar" "" args)
    (Some "ONE JAR ${out}") None false None false None None None ;;
  generate_rule "javabinary" (_builtin_command "java_binary" "" "")
    (Some "JAVA BIN ${out}") None false None false None None None.

Definition generate_scalac_rule : M unit :=
  let scalac := "scalac" in
  let scala_home := scala_home cfg in
  let scalac :=
    if truthy scala_home
    then os_path_join (os_path_join (default "" scala_home) "bin") scalac
    else scalac in
  let java := get_java_command "java" in
  _add_rule ("scalacflags = -nowarn" +:+ nl) ;;
  let cmd := ["JAVACMD=" +:+ java;
              scalac;
              "-encoding UTF8";
              "-d ${out}";
              "-classpath ${classpath}";
              "${scalacflags}";
              "${in}"] in
  generate_rule "scalac" (py_join " " cmd)
    (Some "SCALAC ${out}") None false None false None None None.

Definition generate_scalatest_rule : M unit :=
  let java := get_java_command "java" in
  let scala := "scala" in
  let scala_home := scala_home cfg in
  let scala :=
    if truthy scala_home
    then os_path_join (os_path_join (default "" scala_home) "bin") scala
    else scala in
  let jacocoagent := get_jacocoagent in
  let args := "--java=" +:+ java +:+ " --scala=" +:+ scala +:+ " --jacocoagent=" +:+
              jacocoagent +:+ " --packages_under_test=${packages_under_test} " +:+
              "--script=${out} ${in}" in
  generate_rule "scalatest" (_builtin_command "scala_test" "" args)
    (Some "SCALA TEST ${out}") None false None false None None None.

Definition generate_java_scala_rules : M unit :=
  generate_javac_rules ;;
  generate_java_resource_rules ;;
  let jar := get_java_command "jar" in
  let args := jar +:+ " ${out} ${in}" in
  generate_rule "javajar" (_builtin_command "java_jar" "" args)
    (Some "JAVA JAR ${out}") None false None false None None None ;;
  generate_java_test_rules ;;
  generate_rule "fatjar" (_builtin_command "java_fatjar" "" "")
    (Some "FAT JAR ${out}") None false None false None None None ;;
  generate_java_binary_rules ;;
  generate_scalac_rule ;;
  generate_scalatest_rule.

Definition generate_thrift_rules : M unit :=
  let incs := _incs_list_to_string (thrift_incs cfg) in
  let gen_params := thrift_gen_params cfg in
  let thrift := thrift_config_thrift cfg in
  let thrift :=
    if startswith "//" thrift
    then py_replace ":" "/" (py_replace "//" (build_dir w +:+ "/") thrift)
    else thrift in
  generate_rule "thrift"
    (thrift +:+ " --gen " +:+ gen_params +:+ " " +:+
     "-I . " +:+ incs +:+ " -I `dirname ${in}` " +:+
     "-out " +:+ build_dir w +:+ "/`dirname ${in}` ${in}")
    (Some "THRIFT ${in}") None false None false None None None.

Definition generate_python_rules : M unit :=
  let args := "--basedir=${basedir} --pylib=${out} ${in}" in
  generate_rule "pythonlibrary" (_builtin_command "python_library" "" args)
    (Some "PYTHON LIBRARY ${out}") None false None false None None None ;;
  let args := "--basedir=${basedir} --exclusions=${exclusions} --mainentry=${mainentry} " +:+
              "--pybin=${out} ${in}" in
  generate_rule "pythonbinary" (_builtin_command "python_binary" "" args)
    (Some "PYTHON BINARY ${out}") None false None false None None None.

Definition generate_go_rules : M unit :=
  let go_home := go_home cfg in
  let go := go_config_go cfg in
  let go_module_enabled := go_module_enabled cfg in
  let go_module_relpath := go_module_relpath cfg in
  when (truthy go_home && truthy go)
    (let go_pool := "golang_pool" in
     _add_rule ("pool " +:+ go_pool +:+ nl +:+
                "  depth = 1" +:+ nl) ;;
     let go_path := os_path_normpath w (os_path_abspath w (default "" go_home)) in
     let '(prefix, out_relative) :=
       if go_module_enabled
       then
         let prefix := default "" go in
         if truthy go_module_relpath
         then
           let relative_prefix :=
             os_path_relpath w prefix (default "" go_module_relpath) in
           ("cd " +:+ default "" go_module_relpath +:+ " && " +:+ relative_prefix,
            os_path_join (os_path_relpath w "./" (default "" go_module_relpath)) "")
         else (prefix, "")
       else ("GOPATH=" +:+ go_path +:+ " " +:+ default "" go, "") in
     generate_rule "gopackage"
       (prefix +:+ " install ${extra_goflags} ${package}")
       (Some "GO INSTALL ${package}") None false (Some go_pool) false None None None ;;
     generate_rule "gocommand"
       (prefix +:+ " build -o " +:+ out_relative +:+ "${out} ${extra_goflags} ${package}")
       (Some "GO BUILD ${package}") None false (Some go_pool) false None None None ;;
     generate_rule "gotest"
       (prefix +:+ " test -c -o " +:+ out_relative +:+ "${out} ${extra_goflags} ${package}")
       (Some "GO TEST ${package}") None false (Some go_pool) false None None None).

Definition generate_shell_rules : M unit :=
  generate_rule "shelltest" (_builtin_command "shell_test" "" "")
    (Some "SHELL TEST ${out}") None false None false None None None ;;
  let args := "${out} ${in} ${testdata}" in
  generate_rule "shelltestdata" (_builtin_command "shell_testdata" "" args)
    (Some "SHELL TEST DATA ${out}") None false None false None None None.

Definition generate_lex_yacc_rules : M unit :=
  generate_rule "lex" "flex ${lexflags} -o ${out} ${in}"
    (Some "LEX ${in}") None false None false None None None ;;
  generate_rule "yacc" "bison ${yaccflags} -o ${out} ${in}"
    (Some "YACC ${in}") None false None false None None None.

Definition generate_package_rules : M unit :=
  let args := "${out} ${in} ${entries}" in
  generate_rule "package" (_builtin_command "package" "" args)
    (Some "PACKAGE ${out}") None false None false None None None ;;
  generate_rule "package_tar"
    "tar -c -f ${out} ${tarflags} -C ${packageroot} ${entries}"
    (Some "TAR ${out}") None false None false None None None ;;
  generate_rule "package_zip"
    ("cd ${packageroot} && zip -q temp_archive.zip ${entries} && " +:+
     "cd - && mv ${packageroot}/temp_archive.zip ${out}")
    (Some "ZIP ${out}") None false None false None None None.

Definition generate_version_rules : M unit :=
  let cc := get_cc w in
  let cc_version := get_cc_version w in
  let '(revision, url) := load_scm w (build_dir w) in
  let args := "--scm=${out} --revision=${revision} --url=${url} --profile=${profile} --compiler=" +:+
              dq +:+ "${compiler}" +:+ dq in
  generate_rule "scm" (_builtin_command "scm" "" args)
    (Some "SCM ${out}") None false None false None None None ;;
  let scm := os_path_join (build_dir w) "scm.cc" in
  _add_rule ("build " +:+ scm +:+ ": scm" +:+ nl +:+
             "  revision = " +:+ revision +:+ nl +:+
             "  url = " +:+ url +:+ nl +:+
             "  profile = " +:+ options_profile cfg +:+ nl +:+
             "  compiler = " +:+ (cc +:+ " " +:+ cc_version) +:+ nl) ;;
  _add_rule ("build " +:+ (scm +:+ ".o") +:+ ": cxx " +:+ scm +:+ nl +:+
             "  cppflags = -w -O2" +:+ nl +:+
             "  cxx_warnings =" +:+ nl).

(** [_NinjaFileHeaderGenerator.generate] *)
Definition generate : M (list string) :=
  generate_file_header ;;
  generate_common_rules ;;
  generate_cc_rules ;;
  generate_proto_rules ;;
  generate_resource_rules ;;
  generate_java_scala_rules ;;
  generate_thrift_rules ;;
  generate_python_rules ;;
  generate_go_rules ;;
  generate_shell_rules ;;
  generate_lex_yacc_rules ;;
  generate_package_rules ;;
  generate_version_rules ;;
  get_rules_buf.

(** [NinjaFileGenerator.generate_build_rules], on a fresh header
    generator: the rule text, and the rule names kept for the caller. *)
Definition generate_build_rules : result (list string * list string) :=
  match generate init with
  | Ok (rules, st) => Ok (rules ++ gen_targets_rules w, get_all_rule_names st)
  | Raise e => Raise e
  end.

(** [NinjaFileGenerator.generate_build_script]: the rules are generated,
    then [script_path] is opened for writing, the rules are written to it
    and it is closed; the rules are returned.  The file is not touched when
    the generation raises. *)
Definition generate_build_script : result (list string) :=
  match generate_build_rules with
  | Raise e => Raise e
  | Ok (rules, _) =>
      match fs_open w (script_path w) with
      | IOFailed => Raise OSError
      | Done =>
          match fs_writelines w (script_path w) rules with
          | IOFailed => Raise OSError
          | Done =>
              match fs_close w (script_path w) with
              | IOFailed => Raise OSError
              | Done => Ok rules
              end
          end
      end
  end.

End Generator.


(** ** The awk program of the compile rules

    [awk_script] is run by the executor on the diagnostic output of the
    compiler, one record per line:
<<
    BEGIN {stop=0}
    /^Multiple include guards may be useful for:/ {stop=1}
    !stop {if ($1 ~/^\.+$/) print $0; else print $0 > "/dev/stderr"}
>>
    Its standard output is redirected to [${out}.H] by both templates. *)

(** The default field separator: blanks are the space and the tab. *)
Definition is_blank (c : ascii) : bool :=
  Ascii.eqb c " " || Ascii.eqb c "009".

Fixpoint until_blank (s : string) : string :=
  match s with
  | EmptyString => ""
  | String c r => if is_blank c then "" else String c (until_blank r)
  end.

(** [$1]: leading blanks are skipped, the field ends at the next blank; it
    is empty when the record has no field. *)
Fixpoint first_field (s : string) : string :=
  match s with
  | EmptyString => ""
  | String c r => if is_blank c then first_field r else String c (until_blank r)
  end.

Fixpoint only_dots (s : string) : bool :=
  match s with
  | EmptyString => true
  | String c r => Ascii.eqb c "." && only_dots r
  end.

(** [$1 ~ /^\.+$/] *)
Definition dots_field (line : string) : bool :=
  truthy (first_field line) && only_dots (first_field line).

(** [/^Multiple include guards may be useful for:/] *)
Definition sentinel : string := "Multiple include guards may be useful for:".

Definition is_sentinel (line : string) : bool := startswith sentinel line.

(** The variable [stop] and the lines printed so far. *)
Record awk_state : Type := AwkState {
  stop : bool;
  to_stdout : list string;
  to_stderr : list string;
}.

(** The two pattern-action rules, applied in order to one record. *)
Definition awk_record (s : awk_state) (line : string) : awk_state :=
  let stop := if is_sentinel line then true else stop s in
  if negb stop
  then if dots_field line
       then {| stop := stop; to_stdout := to_stdout s ++ [line]; to_stderr := to_stderr s |}
       else {| stop := stop; to_stdout := to_stdout s; to_stderr := to_stderr s ++ [line] |}
  else {| stop := stop; to_stdout := to_stdout s; to_stderr := to_stderr s |}.

(** [BEGIN {stop=0}], then every record of the input. *)
Definition awk_run (lines : list string) : awk_state :=
  fold_left awk_record lines {| stop := false; to_stdout := []; to_stderr := [] |}.

(** ** The or-list of a shell

    A rule command is run by the executor through [/bin/sh]; [_hdrs_command]
    relies on the list [a || b], which runs [b] only when [a] fails (rerun
    the command without it on error). *)
Inductive sh_list : Type :=
  | Simple (command : string)
  | OrList (a b : sh_list).

Fixpoint sh_text (l : sh_list) : string :=
  match l with
  | Simple command => command
  | OrList a b => sh_text a +:+ " || " +:+ sh_text b
  end.

(** The exit status of a list and the commands it ran, in order, when
    [exec] gives the exit status of each simple command. *)
Fixpoint sh_run (exec : string → Z) (l : sh_list) : Z * list string :=
  match l with
  | Simple command => (exec command, [command])
  | OrList a b =>
      let '(status, ran) := sh_run exec a in
      if status =? 0 then (status, ran)
      else let '(status', ran') := sh_run exec b in (status', ran ++ ran')
  end.
(** ** What one call of [generate_rule] does *)

(** The entries that [generate_rule] appends to the buffer, in order. *)
Definition rule_block (w : world) (name command : string)
    (description depfile : option string) (generator : bool)
    (pool : option string) (restat : bool)
    (rspfile rspfile_content deps : option string) : list string :=
  [("rule " +:+ name) +:+ nl; ("  command = " +:+ command) +:+ nl] ++
  (if truthy description
   then [("  description = " +:+ colored w (default "" description) "dimpurple") +:+ nl]
   else []) ++
  (if truthy depfile then [("  depfile = " +:+ default "" depfile) +:+ nl] else []) ++
  (if generator then ["  generator = 1" +:+ nl] else []) ++
  (if truthy pool then [("  pool = " +:+ default "" pool) +:+ nl] else []) ++
  (if restat then ["  restat = 1" +:+ nl] else []) ++
  (if truthy rspfile then [("  rspfile = " +:+ default "" rspfile) +:+ nl] else []) ++
  (if truthy rspfile_content
   then [("  rspfile_content = " +:+ default "" rspfile_content) +:+ nl]
   else []) ++
  (if truthy deps then [("  deps = " +:+ default "" deps) +:+ nl] else []) ++
  ["" +:+ nl].

(** The arguments of one call of [generate_rule]. *)
Record rule_call : Type := RuleCall {
  rc_name : string;
  rc_command : string;
  rc_description : option string;
  rc_depfile : option string;
  rc_generator : bool;
  rc_pool : option string;
  rc_restat : bool;
  rc_rspfile : option string;
  rc_rspfile_content : option string;
  rc_deps : option string;
}.

Definition declare (w : world) (c : rule_call) : M unit :=
  generate_rule w (rc_name c) (rc_command c) (rc_description c) (rc_depfile c)
    (rc_generator c) (rc_pool c) (rc_restat c) (rc_rspfile c)
    (rc_rspfile_content c) (rc_deps c).

Definition block_of (w : world) (c : rule_call) : list string :=
  rule_block w (rc_name c) (rc_command c) (rc_description c) (rc_depfile c)
    (rc_generator c) (rc_pool c) (rc_restat c) (rc_rspfile c)
    (rc_rspfile_content c) (rc_deps c).

(** A sequence of calls of [generate_rule] on one generator object. *)
Fixpoint declare_all (w : world) (cs : list rule_call) : M unit :=
  match cs with
  | [] => mret tt
  | c :: r => declare w c ;; declare_all w r
  end.

(** ** A concrete pass, used for the examples *)

Definition sample_world : world := {|
  build_dir := "build64_release";
  blade_path := "/opt/blade";
  script_path := "build64_release/build.ninja";
  filter_cc_flags := λ flags _, flags;
  get_cc := "gcc";
  get_cc_version := "9.3.0";
  get_cc_commands := ("gcc", "g++", "g++");
  build_jobs_num := 8;
  gen_targets_rules := [];
  colored := λ text _, text;
  os_path_abspath := λ p, p;
  os_path_normpath := λ p, p;
  os_path_relpath := λ p start, "../" +:+ p;
  sys_executable := "/usr/bin/python";
  load_scm := λ _, ("4f2a9c1", "https://example.org/repo.git");
  subprocess_call := λ _, Returned 0;
  fs_open := λ _, Done;
  fs_writelines := λ _ _, Done;
  fs_close := λ _, Done;
|}.

(** A configuration in which the items that the properties below depend on
    are left open. *)
Definition config_with (jobs : option Z) (plugin home go : option string)
    (module_enabled : bool) (relpath : option string) : config := {|
  options_m := Some "64";
  options_profile := "release";
  options_gprof := false;
  options_coverage := false;
  debug_info_level := "mid";
  cc_debug_info_levels := {[ "mid" := ["-g"] ]};
  cc_warnings := ["-Wall"];
  cc_cxx_warnings := ["-Woverloaded-virtual"];
  cc_c_warnings := ["-Werror-implicit-function-declaration"];
  cc_optimize := ["-O2"];
  cc_cflags := [];
  cc_cxxflags := ["-std=c++11"];
  cc_cppflags := [];
  cc_linkflags := [];
  cc_extra_incs := ["thirdparty"];
  cc_securecc := None;
  cc_library_arflags := ["rcs"];
  link_jobs := jobs;
  protoc := "protoc";
  protoc_java := None;
  protobuf_incs := ["thirdparty"];
  protobuf_java_incs := [];
  protoc_go_plugin := plugin;
  protoc_go_subplugins := [];
  protobuf_go_path := "proto/go";
  go_home := home;
  go_config_go := go;
  go_module_enabled := module_enabled;
  go_module_relpath := relpath;
  java_home := None;
  java_version := "1.8";
  java_source_version := None;
  java_target_version := None;
  jacoco_home := None;
  one_jar_boot_jar := "boot.jar";
  scala_home := None;
  thrift_incs := [];
  thrift_gen_params := "cpp:include_prefix,pure_enums";
  thrift_config_thrift := "thrift";
|}.

(** A link-jobs limit of 4, a Go protobuf plugin, Go in module mode with a
    module-relative path. *)
Definition sample_config : config :=
  config_with (Some 4) (Some "protoc-gen-go") (Some "/go") (Some "go") true (Some "mod").

(** No link-jobs limit and no Go tool chain at all. *)
Definition plain_config : config :=
  config_with None None None None false None.

(** A Go protobuf plugin, but no Go home. *)
Definition homeless_config : config :=
  config_with None (Some "protoc-gen-go") None (Some "go") false None.

(** A world in which no shell can be started. *)
Definition shellless_world : world := {|
  build_dir := build_dir sample_world;
  blade_path := blade_path sample_world;
  script_path := script_path sample_world;
  filter_cc_flags := filter_cc_flags sample_world;
  get_cc := get_cc sample_world;
  get_cc_version := get_cc_version sample_world;
  get_cc_commands := get_cc_commands sample_world;
  build_jobs_num := build_jobs_num sample_world;
  gen_targets_rules := gen_targets_rules sample_world;
  colored := colored sample_world;
  os_path_abspath := os_path_abspath sample_world;
  os_path_normpath := os_path_normpath sample_world;
  os_path_relpath := os_path_relpath sample_world;
  sys_executable := sys_executable sample_world;
  load_scm := load_scm sample_world;
  subprocess_call := λ _, SpawnFailed;
  fs_open := fs_open sample_world;
  fs_writelines := fs_writelines sample_world;
  fs_close := fs_close sample_world;
|}.

(** A world whose shell runs the probe and rejects [pipefail]. *)
Definition dash_world : world := {|
  build_dir := build_dir sample_world;
  blade_path := blade_path sample_world;
  script_path := script_path sample_world;
  filter_cc_flags := filter_cc_flags sample_world;
  get_cc := get_cc sample_world;
  get_cc_version := get_cc_version sample_world;
  get_cc_commands := get_cc_commands sample_world;
  build_jobs_num := build_jobs_num sample_world;
  gen_targets_rules := gen_targets_rules sample_world;
  colored := colored sample_world;
  os_path_abspath := os_path_abspath sample_world;
  os_path_normpath := os_path_normpath sample_world;
  os_path_relpath := os_path_relpath sample_world;
  sys_executable := sys_executable sample_world;
  load_scm := load_scm sample_world;
  subprocess_call := λ _, Returned 2;
  fs_open := fs_open sample_world;
  fs_writelines := fs_writelines sample_world;
  fs_close := fs_close sample_world;
|}.

(** A world whose build directory has a colon in its name. *)
Definition colon_world : world := {|
  build_dir := "out:dir";
  blade_path := blade_path sample_world;
  script_path := "out:dir/build.ninja";
  filter_cc_flags := filter_cc_flags sample_world;
  get_cc := get_cc sample_world;
  get_cc_version := get_cc_version sample_world;
  get_cc_commands := get_cc_commands sample_world;
  build_jobs_num := build_jobs_num sample_world;
  gen_targets_rules := gen_targets_rules sample_world;
  colored := colored sample_world;
  os_path_abspath := os_path_abspath sample_world;
  os_path_normpath := os_path_normpath sample_world;
  os_path_relpath := os_path_relpath sample_world;
  sys_executable := sys_executable sample_world;
  load_scm := load_scm sample_world;
  subprocess_call := subprocess_call sample_world;
  fs_open := fs_open sample_world;
  fs_writelines := fs_writelines sample_world;
  fs_close := fs_close sample_world;
|}.

Definition copy_call : rule_call :=
  RuleCall "copy" "cp -f ${in} ${out}" (Some "COPY ${in} ${out}")
    None false None false None None None.

(** ** Reading the emitted buffer *)

(** The entry by which a rule is assigned to the pool [p]. *)
Definition pool_assignment (p : string) : string := ("  pool = " +:+ p) +:+ nl.

Definition is_pool_assignment (e : string) : bool := startswith "  pool = " e.

(** The entry [e] declares the pool [p]. *)
Definition declares_pool (p e : string) : bool :=
  startswith ("pool " +:+ p +:+ nl +:+ "  depth = ") e.

(** The entry [e] opens a rule block. *)
Definition is_rule_header (e : string) : bool := startswith "rule " e.

Definition pool_declared (p : string) (buf : list string) : Prop :=
  ∃ (j : nat) (e : string), buf !! j = Some e ∧ declares_pool p e = true.

(** Every pool assignment of the buffer is preceded by a declaration of its
    pool, and a rule header lies between the two: the declaration comes
    before the block of the rule that uses the pool. *)
Definition pools_declared_before_use (buf : list string) : Prop :=
  ∀ (i : nat) (p : string),
    buf !! i = Some (pool_assignment p) →
    ∃ (j h : nat) (e r : string),
      (j < h)%nat ∧ (h ≤ i)%nat ∧
      buf !! j = Some e ∧ declares_pool p e = true ∧
      buf !! h = Some r ∧ is_rule_header r = true.

(** ** A program logic for the generator monad *)

(** Partial correctness: if [m] returns from a state in [P], the result and
    the final state are in [Q]. *)
Definition hoare {A} (P : generator → Prop) (m : M A)
    (Q : A → generator → Prop) : Prop :=
  ∀ st, P st →
    match m st with
    | Ok (a, st') => Q a st'
    | Raise _ => True
    end.

(** The buffer is well ordered, it still begins with [pre], and the pools
    of [D] are declared in it. *)
Definition pools_inv (pre D : list string) (st : generator) : Prop :=
  pools_declared_before_use (rules_buf st) ∧
  pre `prefix_of` rules_buf st ∧
  ∀ p, p ∈ D → pool_declared p (rules_buf st).

(** [m] leaves the generator as it found it. *)
Definition readonly {A} (m : M A) : Prop :=
  ∀ st, match m st with
        | Ok (_, st') => st' = st
        | Raise _ => True
        end.

(** The two entries written by [generate_file_header]. *)
Definition file_header (w : world) : list string :=
  [("# build.ninja generated by blade" +:+ nl +:+
    "ninja_required_version = 1.7" +:+ nl +:+
    "builddir = " +:+ build_dir w +:+ nl) +:+ nl;
   ("pool heavy_pool" +:+ nl +:+ "  depth = 1" +:+ nl) +:+ nl].

(** The command entry of the rule [name] in a buffer: the entry that
    follows the header of its first block. *)
Fixpoint rule_command (name : string) (buf : list string) : option string :=
  match buf with
  | [] => None
  | e :: rest =>
      if String.eqb e (("rule " +:+ name) +:+ nl)
      then head rest
      else rule_command name rest
  end.

(** The entries of the block of the rule [name]: from its header to the
    empty line that closes the block. *)
Fixpoint block_entries (buf : list string) : list string :=
  match buf with
  | [] => []
  | e :: rest => if String.eqb e nl then [e] else e :: block_entries rest
  end.

Fixpoint rule_entries (name : string) (buf : list string) : list string :=
  match buf with
  | [] => []
  | e :: rest =>
      if String.eqb e (("rule " +:+ name) +:+ nl)
      then e :: block_entries rest
      else rule_entries name rest
  end.

(** The buffer of a pass, or the empty list when the pass raises. *)
Definition rules_of (r : result (list string * generator)) : list string :=
  match r with
  | Ok (rules, _) => rules
  | Raise _ => []
  end.

Definition raises {A} (r : result A) : bool :=
  match r with
  | Ok _ => false
  | Raise _ => true
  end.

(** An entry that neither assigns a pool nor declares the pool [p]. *)
Definition pool_free (p e : string) : Prop :=
  is_pool_assignment e = false ∧ declares_pool p e = false.

(** What [gcc -H] may print: a warning on a header reached through a
    relative path, two lines of the inclusion stack, an error, the sentinel
    and the list that follows it. *)
Definition sample_diagnostics_before : list string :=
  ["../util/log.h:3:9: warning: unused variable";
   ". /usr/include/stdio.h";
   ".. /usr/include/features.h";
   "main.cc:7:3: error: x was not declared in this scope"].

Definition sample_diagnostics : list string :=
  sample_diagnostics_before ++
  ["Multiple include guards may be useful for:"; "/usr/include/features.h"].

(** ** The rules of a pass *)

Definition rule_header (name : string) : string := ("rule " +:+ name) +:+ nl.

(** The rule headers of a buffer, in order. *)
Definition rule_headers (buf : list string) : list string :=
  List.filter is_rule_header buf.

(** The entry declares a pool. *)
Definition is_pool_entry (e : string) : bool := startswith "pool " e.

(** The pool declarations of a buffer, in order. *)
Definition pool_entries (buf : list string) : list string :=
  List.filter is_pool_entry buf.

(** Total correctness for the registry: from every state [m] returns, the
    buffer is extended, the rules opened in the extension are those of
    [names], in order, [names] are the names added to the set, and [pools]
    are the pool declarations of the extension. *)
Definition returns {A} (names pools : list string) (m : M A) : Prop :=
  ∀ st, ∃ (a : A) (st' : generator),
    m st = Ok (a, st') ∧
    rules_buf st `prefix_of` rules_buf st' ∧
    rule_headers (rules_buf st') =
      rule_headers (rules_buf st) ++ map rule_header names ∧
    all_rule_names st' = list_to_set names ∪ all_rule_names st ∧
    pool_entries (rules_buf st') = pool_entries (rules_buf st) ++ pools.

(** The rule names of a pass, in the order of [generate]. *)
Definition names_of_pass (cfg : config) : list string :=
  ["copy"] ++
  ["cc"; "cxx"; "securecccompile"; "securecc"; "ar"; "link"; "solink"; "strip"] ++
  (["proto"; "protojava"; "protopython"; "protodescriptors"] ++
   (if truthy (protoc_go_plugin cfg) then ["protogo"] else [])) ++
  ["resource_index"; "resource"] ++
  ["javac"; "javaresource"; "javajar"; "javatest"; "fatjar"; "onejar"; "javabinary";
   "scalac"; "scalatest"] ++
  ["thrift"] ++
  ["pythonlibrary"; "pythonbinary"] ++
  (if truthy (go_home cfg) && truthy (go_config_go cfg)
   then ["gopackage"; "gocommand"; "gotest"] else []) ++
  ["shelltest"; "shelltestdata"] ++
  ["lex"; "yacc"] ++
  ["package"; "package_tar"; "package_zip"] ++
  ["scm"].

(** ** Reading a diagnostic stream *)

(** The lines that come before the first line beginning with the sentinel. *)
Fixpoint before_sentinel (lines : list string) : list string :=
  match lines with
  | [] => []
  | l :: rest => if is_sentinel l then [] else l :: before_sentinel rest
  end.

(** A line without its leading blanks. *)
Fixpoint skip_blanks (s : string) : string :=
  match s with
  | EmptyString => ""
  | String c r => if is_blank c then skip_blanks r else s
  end.

(** An optional argument as [generate_rule] sees it: an empty string counts
    as no value. *)
Definition given (o : option string) : option string :=
  if truthy o then o else None.

(** The entries of the Go rules for a command prefix and an output prefix. *)
Definition go_entries (w : world) (prefix out_relative : string) : list string :=
  [("pool golang_pool" +:+ nl +:+ "  depth = 1" +:+ nl) +:+ nl] ++
  rule_block w "gopackage"
    (prefix +:+ " install ${extra_goflags} ${package}")
    (Some "GO INSTALL ${package}") None false (Some "golang_pool") false None None None ++
  rule_block w "gocommand"
    (prefix +:+ " build -o " +:+ out_relative +:+ "${out} ${extra_goflags} ${package}")
    (Some "GO BUILD ${package}") None false (Some "golang_pool") false None None None ++
  rule_block w "gotest"
    (prefix +:+ " test -c -o " +:+ out_relative +:+ "${out} ${extra_goflags} ${package}")
    (Some "GO TEST ${package}") None false (Some "golang_pool") false None None None.

(** The block of the [thrift] rule for a path of the compiler. *)
Definition thrift_entries (w : world) (cfg : config) (path : string) : list string :=
  rule_block w "thrift"
    (path +:+ " --gen " +:+ thrift_gen_params cfg +:+ " " +:+
     "-I . " +:+ _incs_list_to_string (thrift_incs cfg) +:+ " -I `dirname ${in}` " +:+
     "-out " +:+ build_dir w +:+ "/`dirname ${in}` ${in}")
    (Some "THRIFT ${in}") None false None false None None None.

(** The entries of the four protobuf rules that do not depend on Go, for
    the compiler and the import options used for Java. *)
Definition proto_entries (w : world) (cfg : config) (java_protoc java_incs : string)
    : list string :=
  [("protocflags =" +:+ nl +:+ "protoccpppluginflags =" +:+ nl +:+
    "protocjavapluginflags =" +:+ nl +:+ "protocpythonpluginflags =" +:+ nl) +:+ nl] ++
  rule_block w "proto"
    (protoc cfg +:+ " --proto_path=. " +:+ protoc_import_path_option (protobuf_incs cfg) +:+
     " -I=`dirname ${in}` " +:+ "--cpp_out=" +:+ build_dir w +:+
     " ${protocflags} ${protoccpppluginflags} ${in}")
    (Some "PROTOC ${in}") None false None false None None None ++
  rule_block w "protojava"
    (java_protoc +:+ " --proto_path=. " +:+ java_incs +:+ " --java_out=" +:+
     build_dir w +:+ "/`dirname ${in}` " +:+ "${protocjavapluginflags} ${in}")
    (Some "PROTOCJAVA ${in}") None false None false None None None ++
  rule_block w "protopython"
    (protoc cfg +:+ " --proto_path=. " +:+ protoc_import_path_option (protobuf_incs cfg) +:+
     " -I=`dirname ${in}` " +:+ "--python_out=" +:+ build_dir w +:+
     " ${protocpythonpluginflags} ${in}")
    (Some "PROTOCPYTHON ${in}") None false None false None None None ++
  rule_block w "protodescriptors"
    (protoc cfg +:+ " --proto_path=. " +:+ protoc_import_path_option (protobuf_incs cfg) +:+
     " -I=`dirname ${first}` " +:+ "--descriptor_set_out=${out} --include_imports " +:+
     "--include_source_info ${in}")
    (Some "PROTODESCRIPTORS ${in}") None false None false None None None.

(** The two build statements written by [generate_version_rules]. *)
Definition scm_statement (w : world) (cfg : config) : string :=
  ("build " +:+ os_path_join (build_dir w) "scm.cc" +:+ ": scm" +:+ nl +:+
   "  revision = " +:+ fst (load_scm w (build_dir w)) +:+ nl +:+
   "  url = " +:+ snd (load_scm w (build_dir w)) +:+ nl +:+
   "  profile = " +:+ options_profile cfg +:+ nl +:+
   "  compiler = " +:+ (get_cc w +:+ " " +:+ get_cc_version w) +:+ nl) +:+ nl.

Definition scm_object_statement (w : world) : string :=
  ("build " +:+ (os_path_join (build_dir w) "scm.cc" +:+ ".o") +:+ ": cxx " +:+
   os_path_join (build_dir w) "scm.cc" +:+ nl +:+
   "  cppflags = -w -O2" +:+ nl +:+
   "  cxx_warnings =" +:+ nl) +:+ nl.

(** The pool declarations of a pass. *)
Definition pools_of_pass (w : world) (cfg : config) : list string :=
  [("pool heavy_pool" +:+ nl +:+ "  depth = 1" +:+ nl) +:+ nl] ++
  (if truthy (link_jobs cfg)
   then [("pool link_pool" +:+ nl +:+ "  depth = " +:+
          py_str (Z.min (default 0 (link_jobs cfg)) (build_jobs_num w))) +:+ nl]
   else []) ++
  (if truthy (go_home cfg) && truthy (go_config_go cfg)
   then [("pool golang_pool" +:+ nl +:+ "  depth = 1" +:+ nl) +:+ nl]
   else []).

(** [cfg] with another thrift compiler. *)
Definition with_thrift (cfg : config) (thrift : string) : config := {|
  options_m := options_m cfg;
  options_profile := options_profile cfg;
  options_gprof := options_gprof cfg;
  options_coverage := options_coverage cfg;
  debug_info_level := debug_info_level cfg;
  cc_debug_info_levels := cc_debug_info_levels cfg;
  cc_warnings := cc_warnings cfg;
  cc_cxx_warnings := cc_cxx_warnings cfg;
  cc_c_warnings := cc_c_warnings cfg;
  cc_optimize := cc_optimize cfg;
  cc_cflags := cc_cflags cfg;
  cc_cxxflags := cc_cxxflags cfg;
  cc_cppflags := cc_cppflags cfg;
  cc_linkflags := cc_linkflags cfg;
  cc_extra_incs := cc_extra_incs cfg;
  cc_securecc := cc_securecc cfg;
  cc_library_arflags := cc_library_arflags cfg;
  link_jobs := link_jobs cfg;
  protoc := protoc cfg;
  protoc_java := protoc_java cfg;
  protobuf_incs := protobuf_incs cfg;
  protobuf_java_incs := protobuf_java_incs cfg;
  protoc_go_plugin := protoc_go_plugin cfg;
  protoc_go_subplugins := protoc_go_subplugins cfg;
  protobuf_go_path := protobuf_go_path cfg;
  go_home := go_home cfg;
  go_config_go := go_config_go cfg;
  go_module_enabled := go_module_enabled cfg;
  go_module_relpath := go_module_relpath cfg;
  java_home := java_home cfg;
  java_version := java_version cfg;
  java_source_version := java_source_version cfg;
  java_target_version := java_target_version cfg;
  jacoco_home := jacoco_home cfg;
  one_jar_boot_jar := one_jar_boot_jar cfg;
  scala_home := scala_home cfg;
  thrift_incs := thrift_incs cfg;
  thrift_gen_params := thrift_gen_params cfg;
  thrift_config_thrift := thrift;
|}.

(** The thrift compiler is built in the tree. *)
Definition label_config : config :=
  with_thrift sample_config "//thirdparty/thrift:thrift".

(** The entries of [generate_javac_rules] for the version flags of [javac]. *)
Definition javac_entries (w : world) (cfg : config) (versions : list string)
    : list string :=
  [("source_encoding = UTF-8" +:+ nl +:+ "classpath = ." +:+ nl +:+
    "javacflags =" +:+ nl) +:+ nl] ++
  rule_block w "javac"
    ("rm -fr ${classes_dir} && mkdir -p ${classes_dir} && " +:+
     py_join " " ([get_java_command cfg "javac"] ++ versions ++
                  ["-encoding ${source_encoding}"; "-d ${classes_dir}";
                   "-classpath ${classpath}"; "${javacflags}"; "${in}"]) +:+
     " && sleep 0.01 && " +:+ get_java_command cfg "jar" +:+
     " cf ${out} -C ${classes_dir} .")
    (Some "JAVAC ${out}") None false None false None None None.

(** ** The commands of the compile rules *)

(** The include options of [generate_cc_rules]: the extra include
    directories, then [.] and the build directory. *)
Definition cc_includes (w : world) (cfg : config) : string :=
  py_join " " (map (λ inc, "-I" +:+ inc) (cc_extra_incs cfg ++ ["."; build_dir w])).

(** The value of [cc_command] and of [cxx_command]: one run of the
    compiler on [${in}], for the language flags [flags] and the warnings
    variable [warnings]. *)
Definition compile_command (compiler : string) (flags cppflags : list string)
    (warnings includes : string) : string :=
  compiler +:+ " -o ${out} -MMD -MF ${out}.d -c -fPIC " +:+ py_join " " flags +:+
  " " +:+ py_join " " cppflags +:+ " ${optimize} " +:+ warnings +:+ " ${cppflags} " +:+
  includes +:+ " ${includes} ${in}".

(** The arguments that the two attempts of [_hdrs_command] share. *)
Definition hdrs_args (flags cppflags : list string) (includes : string) : string :=
  "-o /dev/null -E -H " +:+ py_join " " flags +:+ " " +:+
  py_join " " cppflags +:+ " -w ${cppflags} " +:+ includes +:+
  " ${includes} ${in} 2> ${out}".

(** * Properties *)

Lemma bind_run {A B} (m : M A) (f : A → M B) (st : generator) :
  (m ≫= f) st = match m st with Ok (a, st') => f a st' | Raise e => Raise e end.
Proof. reflexivity. Qed.

Lemma ret_run {A} (a : A) (st : generator) : (mret a : M A) st = Ok (a, st).
Proof. reflexivity. Qed.

Lemma add_rule_run (rule : string) (st : generator) :
  _add_rule rule st =
  Ok (tt, {| rules_buf := rules_buf st ++ [rule +:+ nl];
             all_rule_names := all_rule_names st |}).
Proof. reflexivity. Qed.

Lemma when_add_rule_run (c : bool) (rule : string) (st : generator) :
  when c (_add_rule rule) st =
  Ok (tt, {| rules_buf := rules_buf st ++ (if c then [rule +:+ nl] else []);
             all_rule_names := all_rule_names st |}).
Proof. destruct c, st; simpl; rewrite ?app_nil_r; reflexivity. Qed.

(** [generate_rule] never raises: it records the name and appends the block. *)
Lemma generate_rule_run w name command description depfile gen pool restat
    rspfile rspfile_content deps (st : generator) :
  generate_rule w name command description depfile gen pool restat
    rspfile rspfile_content deps st =
  Ok (tt, {| rules_buf := rules_buf st ++
               rule_block w name command description depfile gen pool restat
                 rspfile rspfile_content deps;
             all_rule_names := {[ name ]} ∪ all_rule_names st |}).
Proof.
  unfold generate_rule, rule_block.
  rewrite !bind_run. unfold add_rule_name at 1. cbv beta iota.
  repeat (rewrite ?bind_run, ?add_rule_run, ?when_add_rule_run; cbv beta iota;
          cbn [rules_buf all_rule_names]).
  do 2 f_equal. f_equal. rewrite <- !app_assoc. reflexivity.
Qed.

(** ** The rule registry *)

Lemma declare_run w c (st : generator) :
  declare w c st =
  Ok (tt, {| rules_buf := rules_buf st ++ block_of w c;
             all_rule_names := {[ rc_name c ]} ∪ all_rule_names st |}).
Proof. unfold declare, block_of. apply generate_rule_run. Qed.

Lemma declare_all_run w cs : ∀ st : generator,
  declare_all w cs st =
  Ok (tt, {| rules_buf := rules_buf st ++ concat (block_of w <$> cs);
             all_rule_names := list_to_set (rc_name <$> cs) ∪ all_rule_names st |}).
Proof.
  induction cs as [|c cs IH]; intros st.
  - destruct st as [buf names]. cbn [declare_all fmap list_fmap concat rules_buf
      all_rule_names list_to_set].
    rewrite app_nil_r, (left_id_L ∅ (∪)). reflexivity.
  - cbn [declare_all]. rewrite bind_run, declare_run, IH.
    cbn [rules_buf all_rule_names fmap list_fmap concat list_to_set].
    rewrite <- app_assoc, (assoc_L (∪)), (comm_L (∪) _ {[rc_name c]}).
    reflexivity.
Qed.

(** C10.  Whatever sequence of [generate_rule] calls is made on a fresh
    generator, none of them raises, every call appends its rule block to the
    buffer (a repeated name gets a second block), and [get_all_rule_names]
    returns a duplicate-free list whose elements are exactly the names that
    were passed.  Nothing is stated about the order of that list. *)
Theorem get_all_rule_names_exact (w : world) (cs : list rule_call) :
  ∃ st : generator,
    declare_all w cs init = Ok (tt, st) ∧
    rules_buf st = concat (block_of w <$> cs) ∧
    NoDup (get_all_rule_names st) ∧
    ∀ name, name ∈ get_all_rule_names st ↔ name ∈ rc_name <$> cs.
Proof.
  eexists. split; [apply declare_all_run|].
  cbn [rules_buf all_rule_names init]. split; [reflexivity|].
  unfold get_all_rule_names. cbn [all_rule_names]. split.
  - apply NoDup_elements.
  - intros name.
    rewrite elem_of_elements, (right_id_L ∅ (∪)). apply elem_of_list_to_set.
Qed.

(** C1, as the code has it.  [generate_rule] has no duplicate check: when
    the name is already in the set of declared names the call still returns
    normally, appends a further rule block and leaves the set unchanged. *)
Theorem generate_rule_accepts_duplicate (w : world) (c : rule_call) (st : generator) :
  rc_name c ∈ all_rule_names st →
  declare w c st =
  Ok (tt, {| rules_buf := rules_buf st ++ block_of w c;
             all_rule_names := all_rule_names st |}).
Proof.
  intros Hin. rewrite declare_run. do 3 f_equal.
  apply subseteq_union_1_L, singleton_subseteq_l, Hin.
Qed.

(** ** Rules of the program logic *)

Lemma hoare_ret {A} (P : generator → Prop) (a : A) (Q : A → generator → Prop) :
  (∀ st, P st → Q a st) → hoare P (mret a) Q.
Proof. intros H st HP. apply H, HP. Qed.

Lemma hoare_bind {A B} (P : generator → Prop) (R : A → generator → Prop)
    (Q : B → generator → Prop) (m : M A) (f : A → M B) :
  hoare P m R → (∀ a, hoare (R a) (f a) Q) → hoare P (m ≫= f) Q.
Proof.
  intros Hm Hf st HP. rewrite bind_run. specialize (Hm st HP).
  destruct (m st) as [[a st']|e]; [|exact I]. apply (Hf a st' Hm).
Qed.

Lemma hoare_consequence {A} (P P' : generator → Prop) (Q Q' : A → generator → Prop)
    (m : M A) :
  hoare P' m Q' → (∀ st, P st → P' st) → (∀ a st, Q' a st → Q a st) → hoare P m Q.
Proof.
  intros Hm HP HQ st Hst. specialize (Hm st (HP st Hst)).
  destruct (m st) as [[a st']|e]; [|exact I]. apply HQ, Hm.
Qed.

(** A step that keeps an invariant, followed by steps that keep it. *)
Lemma hoare_seq {A B} (P : generator → Prop) (m : M A) (f : A → M B) :
  hoare P m (λ _, P) → (∀ a, hoare P (f a) (λ _, P)) → hoare P (m ≫= f) (λ _, P).
Proof. intros Hm Hf. apply (hoare_bind P (λ _, P)); assumption. Qed.

Lemma hoare_when (P : generator → Prop) (c : bool) (body : M unit) :
  (c = true → hoare P body (λ _, P)) → hoare P (when c body) (λ _, P).
Proof.
  intros H. destruct c; cbn [when]; [apply H; reflexivity|].
  apply hoare_ret. auto.
Qed.

Lemma hoare_readonly {A} (P : generator → Prop) (m : M A) :
  readonly m → hoare P m (λ _, P).
Proof.
  intros Hm st HP. specialize (Hm st).
  destruct (m st) as [[a st']|e]; [|exact I]. subst st'. exact HP.
Qed.

Lemma hoare_raise {A} (P : generator → Prop) (e : py_error) (Q : A → generator → Prop) :
  hoare P (raise e) Q.
Proof. intros st _. exact I. Qed.

(** ** Strings *)

Lemma startswith_app (p s : string) : startswith p (p +:+ s) = true.
Proof.
  induction p as [|a p IH]; [reflexivity|].
  change (startswith (String a p) (String a p +:+ s))
    with (if Ascii.eqb a a then startswith p (p +:+ s) else false).
  rewrite Ascii.eqb_refl. exact IH.
Qed.

Lemma append_nl_inj (s s' : string) : s +:+ nl = s' +:+ nl → s = s'.
Proof.
  revert s'. induction s as [|a s IH]; intros [|a' s']; cbn; intros H.
  - reflexivity.
  - destruct s'; discriminate H.
  - destruct s; discriminate H.
  - injection H as -> H. f_equal. apply IH, H.
Qed.

Lemma pool_assignment_is_assignment (p : string) :
  is_pool_assignment (pool_assignment p) = true.
Proof. reflexivity. Qed.

Lemma pool_assignment_inj (p q : string) :
  pool_assignment p = pool_assignment q → p = q.
Proof.
  unfold pool_assignment. intros H%append_nl_inj.
  exact (String.app_inj "  pool = " p q H).
Qed.

(** ** The ordering of pools in the buffer *)

Lemma pool_declared_app (p : string) (buf ext : list string) :
  pool_declared p buf → pool_declared p (buf ++ ext).
Proof.
  intros (j & e & Hj & He). exists j, e. split; [|exact He].
  apply lookup_app_l_Some, Hj.
Qed.

Lemma pools_ordered_nil : pools_declared_before_use [].
Proof. intros i p H. rewrite lookup_nil in H. discriminate H. Qed.

Lemma pools_ordered_old (buf ext : list string) (i : nat) (p : string) :
  pools_declared_before_use buf →
  buf !! i = Some (pool_assignment p) →
  ∃ (j h : nat) (e r : string),
    (j < h)%nat ∧ (h ≤ i)%nat ∧
    (buf ++ ext) !! j = Some e ∧ declares_pool p e = true ∧
    (buf ++ ext) !! h = Some r ∧ is_rule_header r = true.
Proof.
  intros Hbuf Hi. destruct (Hbuf i p Hi) as (j & h & e & r & Hjh & Hhi & Hj & He & Hh & Hr).
  exists j, h, e, r. repeat split; try assumption; apply lookup_app_l_Some; assumption.
Qed.

(** Entries that assign no pool can be appended freely. *)
Lemma pools_ordered_app_plain (buf ext : list string) :
  pools_declared_before_use buf →
  Forall (λ e, is_pool_assignment e = false) ext →
  pools_declared_before_use (buf ++ ext).
Proof.
  intros Hbuf Hext i p Hi.
  apply lookup_app_Some in Hi as [Hi|[_ Hi]].
  - apply pools_ordered_old; assumption.
  - rewrite Forall_lookup in Hext. specialize (Hext _ _ Hi).
    rewrite pool_assignment_is_assignment in Hext. discriminate Hext.
Qed.

Lemma opt_entry_elem (c : bool) (x e : string) :
  e ∈ (if c then [x] else []) → c = true ∧ e = x.
Proof.
  destruct c; intros H.
  - apply list_elem_of_singleton in H. split; [reflexivity|exact H].
  - apply elem_of_nil in H. destruct H.
Qed.

(** The only pool assignment of a rule block is that of its [pool] argument. *)
Lemma rule_block_assignment w name command description depfile gen pool restat
    rspfile rspfile_content deps (e : string) :
  e ∈ rule_block w name command description depfile gen pool restat
        rspfile rspfile_content deps →
  is_pool_assignment e = true →
  truthy pool = true ∧ e = pool_assignment (default "" pool).
Proof.
  unfold rule_block. intros H He.
  repeat (apply elem_of_app in H as [H|H]);
    try (apply opt_entry_elem in H as [Hc ->]);
    try (repeat (apply elem_of_cons in H as [->|H]); try (apply elem_of_nil in H; destruct H));
    try discriminate He.
  rewrite Hc.
  split; reflexivity.
Qed.

Lemma rule_block_header w name command description depfile gen pool restat
    rspfile rspfile_content deps :
  ∃ (r : string) (rest : list string),
    rule_block w name command description depfile gen pool restat
      rspfile rspfile_content deps = r :: rest ∧
    is_rule_header r = true.
Proof. eexists _, _. split; reflexivity. Qed.

(** A rule block can be appended when its pool, if any, is declared. *)
Lemma pools_ordered_app_block (buf : list string) w name command description depfile
    gen pool restat rspfile rspfile_content deps :
  pools_declared_before_use buf →
  (truthy pool = true → pool_declared (default "" pool) buf) →
  pools_declared_before_use
    (buf ++ rule_block w name command description depfile gen pool restat
              rspfile rspfile_content deps).
Proof.
  intros Hbuf Hpool i p Hi.
  apply lookup_app_Some in Hi as [Hi|[Hge Hi]].
  - apply pools_ordered_old; assumption.
  - apply list_elem_of_lookup_2 in Hi.
    apply rule_block_assignment in Hi as [Ht Hp]; [|apply pool_assignment_is_assignment].
    apply pool_assignment_inj in Hp. subst p.
    destruct (Hpool Ht) as (j & e & Hj & He).
    destruct (rule_block_header w name command description depfile gen pool restat
                rspfile rspfile_content deps) as (r & rest & -> & Hr).
    exists j, (length buf), e, r.
    split; [apply lookup_lt_Some in Hj; exact Hj|].
    split; [exact Hge|].
    split; [apply lookup_app_l_Some, Hj|].
    split; [exact He|].
    split; [|exact Hr].
    rewrite lookup_app_r by lia. rewrite Nat.sub_diag. reflexivity.
Qed.

(** ** The generators keep the pools ordered *)

Lemma pools_inv_weaken (p : string) (pre D : list string) (st : generator) :
  pools_inv pre (p :: D) st → pools_inv pre D st.
Proof.
  intros (Hord & Hpre & Hdecl). split; [exact Hord|]. split; [exact Hpre|].
  intros q Hq. apply Hdecl. right. exact Hq.
Qed.

Lemma hoare_add_rule_plain (pre D : list string) (text : string) :
  is_pool_assignment (text +:+ nl) = false →
  hoare (pools_inv pre D) (_add_rule text) (λ _, pools_inv pre D).
Proof.
  intros Htext st (Hord & Hpre & Hdecl). rewrite add_rule_run.
  split; [|split]; cbn [rules_buf].
  - apply pools_ordered_app_plain; [exact Hord|].
    constructor; [exact Htext|constructor].
  - apply prefix_app_r, Hpre.
  - intros p Hp. apply pool_declared_app, Hdecl, Hp.
Qed.

Lemma hoare_add_rule_pool (pre D : list string) (p text : string) :
  is_pool_assignment (text +:+ nl) = false →
  declares_pool p (text +:+ nl) = true →
  hoare (pools_inv pre D) (_add_rule text) (λ _, pools_inv pre (p :: D)).
Proof.
  intros Htext Hp st (Hord & Hpre & Hdecl). rewrite add_rule_run.
  split; [|split]; cbn [rules_buf].
  - apply pools_ordered_app_plain; [exact Hord|].
    constructor; [exact Htext|constructor].
  - apply prefix_app_r, Hpre.
  - intros q [->|Hq]%elem_of_cons.
    + exists (length (rules_buf st)), (text +:+ nl). split; [|exact Hp].
      rewrite lookup_app_r by lia. rewrite Nat.sub_diag. reflexivity.
    + apply pool_declared_app, Hdecl, Hq.
Qed.

Lemma hoare_generate_rule (pre D : list string) w name command description depfile gen
    pool restat rspfile rspfile_content deps :
  (truthy pool = true → default "" pool ∈ D) →
  hoare (pools_inv pre D)
    (generate_rule w name command description depfile gen pool restat
       rspfile rspfile_content deps)
    (λ _, pools_inv pre D).
Proof.
  intros Hpool st (Hord & Hpre & Hdecl). rewrite generate_rule_run.
  split; [|split]; cbn [rules_buf].
  - apply pools_ordered_app_block; [exact Hord|].
    intros Ht. apply Hdecl, Hpool, Ht.
  - apply prefix_app_r, Hpre.
  - intros p Hp. apply pool_declared_app, Hdecl, Hp.
Qed.

Lemma readonly_get_cc_flags w cfg : readonly (_get_cc_flags w cfg).
Proof.
  intros st. unfold _get_cc_flags.
  destruct (truthy (options_m cfg)); rewrite bind_run; unfold py_getitem;
    destruct (cc_debug_info_levels cfg !! debug_info_level cfg); try exact I;
    cbv beta iota zeta;
    destruct (options_gprof cfg), (options_coverage cfg); reflexivity.
Qed.

Lemma readonly_shell_support_pipefail w : readonly (_shell_support_pipefail w).
Proof.
  intros st. unfold _shell_support_pipefail.
  destruct (subprocess_call w _); [reflexivity|exact I].
Qed.

Lemma readonly_console_info msg : readonly (console_info msg).
Proof. intros st. reflexivity. Qed.

(** One step of a proof that a generator keeps [pools_inv]: a rule without
    pool, a plain text block, a guarded block, or a sequence. *)
Ltac pools_step :=
  lazymatch goal with
  | H : hoare ?P ?m ?Q |- hoare ?P ?m ?Q => exact H
  | |- hoare _ (generate_rule _ _ _ _ _ _ _ _ _ _ _) _ =>
      apply hoare_generate_rule; let H := fresh in intros H; discriminate H
  | |- hoare _ (_add_rule _) _ => apply hoare_add_rule_plain; lazy; reflexivity
  | |- hoare _ (_get_cc_flags _ _) _ => apply hoare_readonly, readonly_get_cc_flags
  | |- hoare _ (_shell_support_pipefail _) _ =>
      apply hoare_readonly, readonly_shell_support_pipefail
  | |- hoare _ (console_info _) _ => apply hoare_readonly, readonly_console_info
  | |- hoare _ (console_fatal _) _ => apply hoare_raise
  | |- hoare _ (when _ _) _ => apply hoare_when; intros ?
  | |- hoare _ (mbind _ _) _ => apply hoare_seq; [|intros ?]
  | |- hoare _ (mret _) _ => apply hoare_ret; intros ? ?; assumption
  end.

Ltac pools_auto := repeat pools_step.

Section GeneratorsKeepPools.

Context (w : world) (cfg : config) (pre D : list string).

Local Abbreviation keeps m := (hoare (pools_inv pre D) m (λ _, pools_inv pre D)).

Lemma generate_file_header_pools : keeps (generate_file_header w).
Proof. unfold generate_file_header. cbv zeta. pools_auto. Qed.

Lemma generate_common_rules_pools : keeps (generate_common_rules w).
Proof. unfold generate_common_rules. cbv zeta. pools_auto. Qed.

Lemma generate_cc_vars_pools : keeps (generate_cc_vars w cfg).
Proof.
  unfold generate_cc_vars.
  destruct (_get_warning_flags w cfg) as [[warnings cxx_warnings] c_warnings].
  cbv zeta. pools_auto.
Qed.

Lemma generate_cc_rules_pools : keeps (generate_cc_rules w cfg).
Proof.
  pose proof generate_cc_vars_pools.
  unfold generate_cc_rules.
  destruct (get_cc_commands w) as [[cc cxx] ld]. cbv zeta.
  apply hoare_seq; [pools_auto|]. intros [cppflags ldflags].
  do 7 (apply hoare_seq; [pools_auto|intros ?]).
  apply (hoare_bind _ (λ pool, pools_inv pre (if truthy pool then default "" pool :: D else D))).
  - destruct (truthy (link_jobs cfg)).
    + apply (hoare_bind _ (λ _, pools_inv pre D)); [pools_auto|intros _].
      apply (hoare_bind _ (λ _, pools_inv pre ("link_pool" :: D))).
      * apply hoare_add_rule_pool; reflexivity.
      * intros _. apply hoare_ret. intros st Hst. exact Hst.
    + apply hoare_ret. intros st Hst. exact Hst.
  - intros pool.
    apply (hoare_consequence _ (pools_inv pre (if truthy pool then default "" pool :: D else D))
                             _ (λ _, pools_inv pre (if truthy pool then default "" pool :: D else D))).
    + do 2 (apply hoare_seq;
              [apply hoare_generate_rule; intros ->; left|intros _]).
      pools_auto.
    + intros st Hst. exact Hst.
    + intros _ st Hst. destruct (truthy pool); [|exact Hst].
      apply pools_inv_weaken in Hst. exact Hst.
Qed.

Lemma generate_proto_rules_pools : keeps (generate_proto_rules w cfg).
Proof. unfold generate_proto_rules. cbv zeta. pools_auto. Qed.

Lemma generate_resource_rules_pools : keeps (generate_resource_rules w).
Proof. unfold generate_resource_rules. cbv zeta. pools_auto. Qed.

Lemma generate_java_scala_rules_pools : keeps (generate_java_scala_rules w cfg).
Proof.
  unfold generate_java_scala_rules, generate_javac_rules,
    generate_java_resource_rules, generate_java_test_rules,
    generate_java_binary_rules, generate_scalac_rule, generate_scalatest_rule.
  cbv zeta. pools_auto.
Qed.

Lemma generate_thrift_rules_pools : keeps (generate_thrift_rules w cfg).
Proof. unfold generate_thrift_rules. cbv zeta. pools_auto. Qed.

Lemma generate_python_rules_pools : keeps (generate_python_rules w).
Proof. unfold generate_python_rules. cbv zeta. pools_auto. Qed.

Lemma generate_go_rules_pools : keeps (generate_go_rules w cfg).
Proof.
  unfold generate_go_rules. cbv zeta. apply hoare_when. intros _.
  apply (hoare_bind _ (λ _, pools_inv pre ("golang_pool" :: D))).
  { apply hoare_add_rule_pool; reflexivity. }
  intros _.
  apply (hoare_consequence _ (pools_inv pre ("golang_pool" :: D))
                           _ (λ _, pools_inv pre ("golang_pool" :: D))).
  - destruct (if go_module_enabled cfg then _ else _) as [prefix out_relative].
    do 2 (apply hoare_seq; [apply hoare_generate_rule; intros _; left|intros _]).
    apply hoare_generate_rule. intros _. left.
  - intros st Hst. exact Hst.
  - intros _ st Hst. apply pools_inv_weaken in Hst. exact Hst.
Qed.

Lemma generate_shell_rules_pools : keeps (generate_shell_rules w).
Proof. unfold generate_shell_rules. cbv zeta. pools_auto. Qed.

Lemma generate_lex_yacc_rules_pools : keeps (generate_lex_yacc_rules w).
Proof. unfold generate_lex_yacc_rules. cbv zeta. pools_auto. Qed.

Lemma generate_package_rules_pools : keeps (generate_package_rules w).
Proof. unfold generate_package_rules. cbv zeta. pools_auto. Qed.

Lemma generate_version_rules_pools : keeps (generate_version_rules w cfg).
Proof.
  unfold generate_version_rules.
  destruct (load_scm w (build_dir w)) as [revision url].
  cbv zeta. pools_auto.
Qed.

End GeneratorsKeepPools.

Lemma generate_file_header_init (w : world) :
  hoare (λ st, st = init) (generate_file_header w) (λ _, pools_inv (file_header w) []).
Proof.
  intros st ->. unfold generate_file_header.
  rewrite bind_run, !add_rule_run. cbn [rules_buf init app].
  split; [|split].
  - apply (pools_ordered_app_plain [] (file_header w)); [apply pools_ordered_nil|].
    repeat constructor.
  - reflexivity.
  - intros p Hp. apply elem_of_nil in Hp. destruct Hp.
Qed.

Lemma generate_pools (w : world) (cfg : config) :
  hoare (λ st, st = init) (generate w cfg)
    (λ rules _, pools_declared_before_use rules ∧ file_header w `prefix_of` rules).
Proof.
  unfold generate.
  apply (hoare_bind _ (λ _, pools_inv (file_header w) []));
    [apply generate_file_header_init|intros _].
  apply (hoare_bind _ (λ _, pools_inv (file_header w) []));
    [apply generate_common_rules_pools|intros _].
  apply (hoare_bind _ (λ _, pools_inv (file_header w) []));
    [apply generate_cc_rules_pools|intros _].
  apply (hoare_bind _ (λ _, pools_inv (file_header w) []));
    [apply generate_proto_rules_pools|intros _].
  apply (hoare_bind _ (λ _, pools_inv (file_header w) []));
    [apply generate_resource_rules_pools|intros _].
  apply (hoare_bind _ (λ _, pools_inv (file_header w) []));
    [apply generate_java_scala_rules_pools|intros _].
  apply (hoare_bind _ (λ _, pools_inv (file_header w) []));
    [apply generate_thrift_rules_pools|intros _].
  apply (hoare_bind _ (λ _, pools_inv (file_header w) []));
    [apply generate_python_rules_pools|intros _].
  apply (hoare_bind _ (λ _, pools_inv (file_header w) []));
    [apply generate_go_rules_pools|intros _].
  apply (hoare_bind _ (λ _, pools_inv (file_header w) []));
    [apply generate_shell_rules_pools|intros _].
  apply (hoare_bind _ (λ _, pools_inv (file_header w) []));
    [apply generate_lex_yacc_rules_pools|intros _].
  apply (hoare_bind _ (λ _, pools_inv (file_header w) []));
    [apply generate_package_rules_pools|intros _].
  apply (hoare_bind _ (λ _, pools_inv (file_header w) []));
    [apply generate_version_rules_pools|intros _].
  intros st (Hord & Hpre & _). split; assumption.
Qed.

(** C9.  In the buffer returned by a generation pass every pool assignment
    ["  pool = p"] is preceded by an entry declaring the pool [p], and that
    declaration comes before the header of the rule carrying the assignment
    (this covers [link_pool] and [golang_pool]).  [heavy_pool], which no
    rule of this module uses, is declared by the second entry of the buffer,
    before every rule header. *)
Theorem pools_are_declared_before_use (w : world) (cfg : config)
    (rules : list string) (st : generator) :
  generate w cfg init = Ok (rules, st) →
  pools_declared_before_use rules ∧
  (∃ e, rules !! 1%nat = Some e ∧ declares_pool "heavy_pool" e = true) ∧
  ∀ (h : nat) (r : string),
    rules !! h = Some r → is_rule_header r = true → (1 < h)%nat.
Proof.
  intros Hgen. pose proof (generate_pools w cfg init eq_refl) as H.
  rewrite Hgen in H. destruct H as [Hord [rest ->]].
  split; [exact Hord|]. split.
  - eexists. split; reflexivity.
  - intros h r Hh Hr. destruct h as [|[|h]]; [| |lia].
    + injection Hh as <-. discriminate Hr.
    + injection Hh as <-. discriminate Hr.
Qed.

(** ** Running the generators *)

(** Evaluates a generator on a state, one registry operation at a time. *)
Ltac run_generator :=
  repeat (rewrite ?bind_run, ?generate_rule_run, ?add_rule_run, ?ret_run;
          cbv beta iota; cbn [rules_buf all_rule_names]).

(** C7.  When the Go home or the Go executable is not configured,
    [generate_go_rules] returns without touching the generator: no pool, no
    rule, no error.  When both are configured it appends the declaration of
    [golang_pool] with depth 1, whatever the configuration says, and then
    the three rules [gopackage], [gocommand] and [gotest], each assigned to
    [golang_pool]. *)
Theorem generate_go_rules_spec (w : world) (cfg : config) (st : generator) :
  (truthy (go_home cfg) = false ∨ truthy (go_config_go cfg) = false →
   generate_go_rules w cfg st = Ok (tt, st)) ∧
  (truthy (go_home cfg) = true → truthy (go_config_go cfg) = true →
   ∃ prefix out_relative : string,
     generate_go_rules w cfg st =
     Ok (tt, {| rules_buf :=
                  rules_buf st ++
                  [("pool golang_pool" +:+ nl +:+ "  depth = 1" +:+ nl) +:+ nl] ++
                  rule_block w "gopackage"
                    (prefix +:+ " install ${extra_goflags} ${package}")
                    (Some "GO INSTALL ${package}") None false
                    (Some "golang_pool") false None None None ++
                  rule_block w "gocommand"
                    (prefix +:+ " build -o " +:+ out_relative +:+
                     "${out} ${extra_goflags} ${package}")
                    (Some "GO BUILD ${package}") None false
                    (Some "golang_pool") false None None None ++
                  rule_block w "gotest"
                    (prefix +:+ " test -c -o " +:+ out_relative +:+
                     "${out} ${extra_goflags} ${package}")
                    (Some "GO TEST ${package}") None false
                    (Some "golang_pool") false None None None;
                all_rule_names :=
                  {[ "gotest" ]} ∪ ({[ "gocommand" ]} ∪
                  ({[ "gopackage" ]} ∪ all_rule_names st)) |})).
Proof.
  unfold generate_go_rules. split.
  - intros [H|H]; rewrite H; [|rewrite andb_false_r]; reflexivity.
  - intros -> ->. cbn [andb when].
    destruct (if go_module_enabled cfg then _ else _) as [prefix out_relative].
    exists prefix, out_relative. run_generator.
    rewrite <- !app_assoc. reflexivity.
Qed.

(** ** Protocol buffer rules *)

Lemma generate_proto_rules_fatal (w : world) (cfg : config) (st : generator) :
  truthy (protoc_go_plugin cfg) = true →
  truthy (go_home cfg) = false →
  generate_proto_rules w cfg st =
  Raise (SystemExit (dq +:+ "go_config.go_home" +:+ dq +:+ " is not configured")).
Proof.
  intros Hplugin Hhome. unfold generate_proto_rules. run_generator.
  rewrite Hplugin. cbn [when]. rewrite bind_run, Hhome. reflexivity.
Qed.

(** A pass raises as soon as one of its first four generators does. *)
Lemma generate_raises_at_proto (w : world) (cfg : config) :
  (∀ st, raises (generate_proto_rules w cfg st) = true) →
  raises (generate w cfg init) = true.
Proof.
  intros Hproto. unfold generate.
  rewrite bind_run. unfold generate_file_header at 1. run_generator.
  unfold generate_common_rules at 1. run_generator.
  destruct (generate_cc_rules w cfg _) as [[[] st3]|e]; [|reflexivity].
  rewrite bind_run. specialize (Hproto st3).
  destruct (generate_proto_rules w cfg st3) as [[[] st4]|e]; [discriminate Hproto|reflexivity].
Qed.

Lemma generate_build_script_raises (w : world) (cfg : config) :
  raises (generate w cfg init) = true →
  raises (generate_build_script w cfg) = true.
Proof.
  unfold generate_build_script, generate_build_rules.
  destruct (generate w cfg init) as [[rules st]|e]; [discriminate|reflexivity].
Qed.

(** C5.  With a Go protobuf plugin configured and no Go home,
    [generate_proto_rules] stops in [console.fatal] from any state: the
    [protogo] rule is not skipped, the call does not return.  The whole pass
    therefore raises, and [generate_build_script] writes no script. *)
Theorem go_plugin_without_go_home_is_fatal (w : world) (cfg : config) (st : generator) :
  truthy (protoc_go_plugin cfg) = true →
  truthy (go_home cfg) = false →
  generate_proto_rules w cfg st =
    Raise (SystemExit (dq +:+ "go_config.go_home" +:+ dq +:+ " is not configured")) ∧
  raises (generate w cfg init) = true ∧
  raises (generate_build_script w cfg) = true.
Proof.
  intros Hplugin Hhome.
  assert (raises (generate w cfg init) = true) as Hgen.
  { apply generate_raises_at_proto. intros st0.
    rewrite generate_proto_rules_fatal by assumption. reflexivity. }
  split; [apply generate_proto_rules_fatal; assumption|].
  split; [exact Hgen|apply generate_build_script_raises, Hgen].
Qed.

(** C2, as the code has it.  With a Go protobuf plugin and a Go home
    configured, [generate_proto_rules] returns and its last rule block is
    [protogo], whose [--go_out] argument names the output directory (after
    [plugins=...:] when sub-plugins are configured).  That directory is
    [protobuf_go_path] when module mode is enabled and no module-relative
    path is set; when module mode is off or a module-relative path is set it
    is [os.path.join(go_home, 'src')]. *)
Theorem protogo_output_directory (w : world) (cfg : config) (st : generator) :
  truthy (protoc_go_plugin cfg) = true →
  truthy (go_home cfg) = true →
  ∃ (st' : generator) (before : list string) (outdir : string),
    generate_proto_rules w cfg st = Ok (tt, st') ∧
    rules_buf st' =
      rules_buf st ++ before ++
      rule_block w "protogo"
        (protoc cfg +:+ " --proto_path=. " +:+
         protoc_import_path_option (protobuf_incs cfg) +:+
         " -I=`dirname ${in}` " +:+
         "--plugin=protoc-gen-go=" +:+ default "" (protoc_go_plugin cfg) +:+
         " --go_out=" +:+
         (if truthy (protoc_go_subplugins cfg)
          then "plugins=" +:+ py_join "+" (protoc_go_subplugins cfg) +:+ ":" +:+ outdir
          else outdir) +:+
         " ${in}")
        (Some "PROTOCGOLANG ${in}") None false None false None None None ∧
    (go_module_enabled cfg = true → truthy (go_module_relpath cfg) = false →
     outdir = protobuf_go_path cfg) ∧
    (go_module_enabled cfg = false ∨ truthy (go_module_relpath cfg) = true →
     outdir = os_path_join (default "" (go_home cfg)) "src").
Proof.
  intros Hplugin Hhome. unfold generate_proto_rules. run_generator.
  rewrite Hplugin. cbn [when]. rewrite bind_run, Hhome. cbn [negb when].
  run_generator.
  match goal with
  | |- context [(((((rules_buf st ++ ?t) ++ ?b1) ++ ?b2) ++ ?b3) ++ ?b4) ++ _] =>
      eexists; exists (t ++ b1 ++ b2 ++ b3 ++ b4); eexists
  end.
  split; [reflexivity|]. cbn [rules_buf].
  split; [rewrite <- !app_assoc; reflexivity|].
  split.
  - intros -> ->. reflexivity.
  - intros [->| ->]; [reflexivity|]. rewrite andb_false_r. reflexivity.
Qed.

(** ** Compile and link rules *)

(** A rule block declares no pool, and assigns none when [pool] is unset. *)
Lemma rule_block_pool_free (p : string) w name command description depfile gen pool
    restat rspfile rspfile_content deps :
  truthy pool = false →
  Forall (pool_free p)
    (rule_block w name command description depfile gen pool restat
       rspfile rspfile_content deps).
Proof.
  intros Hpool. unfold rule_block. rewrite Hpool.
  repeat (apply Forall_app; split);
    repeat match goal with
           | |- Forall _ (if ?c then _ else _) => destruct c
           end;
    repeat constructor.
Qed.

Ltac pool_free_blocks :=
  repeat lazymatch goal with
         | |- Forall _ (_ ++ _) => apply Forall_app; split
         | |- Forall _ (rule_block _ _ _ _ _ _ _ _ _ _ _) =>
             apply rule_block_pool_free; reflexivity
         | |- Forall _ [_] => constructor; [split; lazy; reflexivity|]
         | |- Forall _ [] => constructor
         end.

(** C4.  In the entries that [generate_cc_rules] appends, the compile part
    (flag variables and the rules [cc], [cxx], [securecccompile],
    [securecc], [ar]) neither assigns nor declares a pool.  With a link-jobs
    limit [n] configured, it is followed by the declaration of [link_pool]
    with depth [min n build_jobs_num] and by the rules [link] and [solink],
    both assigned to [link_pool].  Without a limit nothing that
    [generate_cc_rules] appends declares [link_pool] or assigns a pool:
    [link] and [solink] are emitted without pool. *)
Theorem link_pool_spec (w : world) (cfg : config) (st st' : generator) :
  generate_cc_rules w cfg st = Ok (tt, st') →
  ∃ (compile_part : list string) (link_command solink_command : string),
    Forall (pool_free "link_pool") compile_part ∧
    (∀ n : Z, link_jobs cfg = Some n → n ≠ 0 →
       rules_buf st' =
         rules_buf st ++ compile_part ++
         [("pool link_pool" +:+ nl +:+
           "  depth = " +:+ py_str (Z.min n (build_jobs_num w))) +:+ nl] ++
         rule_block w "link" link_command (Some "LINK ${out}")
           None false (Some "link_pool") false None None None ++
         rule_block w "solink" solink_command (Some "SHAREDLINK ${out}")
           None false (Some "link_pool") false None None None ++
         rule_block w "strip" "strip --strip-unneeded -o ${out} ${in}"
           (Some "STRIP ${out}") None false None false None None None) ∧
    (truthy (link_jobs cfg) = false →
       ∃ appended : list string,
         rules_buf st' = rules_buf st ++ appended ∧
         Forall (pool_free "link_pool") appended ∧
         appended =
           compile_part ++
           rule_block w "link" link_command (Some "LINK ${out}")
             None false None false None None None ++
           rule_block w "solink" solink_command (Some "SHAREDLINK ${out}")
             None false None false None None None ++
           rule_block w "strip" "strip --strip-unneeded -o ${out} ${in}"
             (Some "STRIP ${out}") None false None false None None None).
Proof.
  unfold generate_cc_rules.
  destruct (get_cc_commands w) as [[cc cxx] ld].
  rewrite bind_run. pose proof (readonly_get_cc_flags w cfg st) as Hflags.
  destruct (_get_cc_flags w cfg st) as [[[cppflags ldflags] st1]|e]; [subst st1|discriminate].
  unfold generate_cc_vars.
  destruct (_get_warning_flags w cfg) as [[warnings cxx_warnings] c_warnings].
  cbv zeta. run_generator.
  match goal with
  | |- context [_shell_support_pipefail w ?s] =>
      pose proof (readonly_shell_support_pipefail w s) as Hprobe;
      destruct (_shell_support_pipefail w s) as [[pipefail st2]|e]; [subst st2|discriminate]
  end.
  run_generator.
  destruct (truthy (link_jobs cfg)) eqn:Hjobs.
  - unfold console_info. run_generator.
    intros [= <-]. cbn [rules_buf].
    match goal with
    | |- context [((((((((rules_buf st ++ ?v) ++ ?b1) ++ ?b2) ++ ?b3) ++ ?b4) ++ ?b5)
                    ++ _) ++ rule_block _ _ ?lc _ _ _ _ _ _ _ _)
                    ++ rule_block _ _ ?sc _ _ _ _ _ _ _ _] =>
        exists (v ++ b1 ++ b2 ++ b3 ++ b4 ++ b5), lc, sc
    end.
    split; [|split].
    + pool_free_blocks.
    + intros n Hn _. rewrite Hn. cbn [default].
      rewrite <- !app_assoc. reflexivity.
    + discriminate.
  - run_generator.
    intros [= <-]. cbn [rules_buf].
    match goal with
    | |- context [(((((((rules_buf st ++ ?v) ++ ?b1) ++ ?b2) ++ ?b3) ++ ?b4) ++ ?b5)
                    ++ rule_block _ _ ?lc _ _ _ _ _ _ _ _)
                    ++ rule_block _ _ ?sc _ _ _ _ _ _ _ _] =>
        exists (v ++ b1 ++ b2 ++ b3 ++ b4 ++ b5), lc, sc
    end.
    split; [|split].
    + pool_free_blocks.
    + intros n Hn Hne. rewrite Hn in Hjobs. cbv in Hjobs.
      destruct n; [congruence|discriminate Hjobs..].
    + intros _. eexists. split; [|split; [|reflexivity]].
      * rewrite <- !app_assoc. reflexivity.
      * pool_free_blocks.
Qed.

(** The compile rules of [generate_cc_rules]: when the debug level is known
    and the probe has run, the rules [cc] and [cxx] both use the template
    chosen by the status of the probe. *)
Lemma generate_cc_rules_compile_rules (w : world) (cfg : config) (st : generator)
    (options : list string) (status : Z) :
  cc_debug_info_levels cfg !! debug_info_level cfg = Some options →
  subprocess_call w "set -o pipefail 2>/dev/null" = Returned status →
  ∃ (st' : generator) (vars cc_command cxx_command : string) (after : list string),
    generate_cc_rules w cfg st = Ok (tt, st') ∧
    rules_buf st' =
      rules_buf st ++ [vars] ++
      rule_block w "cc" (template (status =? 0) cc_command) (Some "CC ${in}")
        (Some "${out}.d") false None false None None (Some "gcc") ++
      rule_block w "cxx" (template (status =? 0) cxx_command) (Some "CXX ${in}")
        (Some "${out}.d") false None false None None (Some "gcc") ++
      after.
Proof.
  intros Hlevel Hprobe. unfold generate_cc_rules.
  destruct (get_cc_commands w) as [[cc cxx] ld].
  rewrite bind_run.
  assert (∃ flags, _get_cc_flags w cfg st = Ok (flags, st)) as [[cppflags ldflags] ->].
  { unfold _get_cc_flags, py_getitem. rewrite Hlevel.
    destruct (truthy (options_m cfg)), (options_gprof cfg), (options_coverage cfg);
      eexists; reflexivity. }
  unfold generate_cc_vars.
  destruct (_get_warning_flags w cfg) as [[warnings cxx_warnings] c_warnings].
  cbv zeta. run_generator.
  unfold _shell_support_pipefail. rewrite Hprobe. run_generator.
  destruct (truthy (link_jobs cfg)).
  - unfold console_info. run_generator.
    match goal with
    | |- context [(((((((((rules_buf st ++ [?v]) ++ rule_block _ _ (template _ ?c1) _ _ _ _ _ _ _ _)
                    ++ rule_block _ _ (template _ ?c2) _ _ _ _ _ _ _ _) ++ ?b3) ++ ?b4) ++ ?b5)
                    ++ ?b6) ++ ?b7) ++ ?b8) ++ ?b9] =>
        eexists; exists v, c1, c2, (b3 ++ b4 ++ b5 ++ b6 ++ b7 ++ b8 ++ b9)
    end.
    split; [reflexivity|]. cbn [rules_buf]. rewrite <- !app_assoc. reflexivity.
  - run_generator.
    match goal with
    | |- context [((((((((rules_buf st ++ [?v]) ++ rule_block _ _ (template _ ?c1) _ _ _ _ _ _ _ _)
                    ++ rule_block _ _ (template _ ?c2) _ _ _ _ _ _ _ _) ++ ?b3) ++ ?b4) ++ ?b5)
                    ++ ?b7) ++ ?b8) ++ ?b9] =>
        eexists; exists v, c1, c2, (b3 ++ b4 ++ b5 ++ b7 ++ b8 ++ b9)
    end.
    split; [reflexivity|]. cbn [rules_buf]. rewrite <- !app_assoc. reflexivity.
Qed.

Lemma generate_cc_rules_spawn_failed (w : world) (cfg : config) (st : generator) :
  subprocess_call w "set -o pipefail 2>/dev/null" = SpawnFailed →
  generate_cc_rules w cfg st =
    match cc_debug_info_levels cfg !! debug_info_level cfg with
    | Some _ => Raise OSError
    | None => Raise (KeyError (debug_info_level cfg))
    end.
Proof.
  intros Hprobe. unfold generate_cc_rules.
  destruct (get_cc_commands w) as [[cc cxx] ld].
  rewrite bind_run. unfold _get_cc_flags at 1, py_getitem.
  destruct (cc_debug_info_levels cfg !! debug_info_level cfg) as [options|].
  - destruct (truthy (options_m cfg)), (options_gprof cfg), (options_coverage cfg);
      run_generator;
      unfold generate_cc_vars;
      destruct (_get_warning_flags w cfg) as [[warnings cxx_warnings] c_warnings];
      cbv zeta; run_generator;
      unfold _shell_support_pipefail; rewrite Hprobe; reflexivity.
  - destruct (truthy (options_m cfg)); reflexivity.
Qed.

Lemma generate_raises_at_cc (w : world) (cfg : config) :
  (∀ st, raises (generate_cc_rules w cfg st) = true) →
  raises (generate w cfg init) = true.
Proof.
  intros Hcc. unfold generate.
  rewrite bind_run. unfold generate_file_header at 1. run_generator.
  unfold generate_common_rules at 1. run_generator.
  match goal with
  | |- context [generate_cc_rules w cfg ?s] =>
      specialize (Hcc s);
      destruct (generate_cc_rules w cfg s) as [[[] st3]|e]; [discriminate Hcc|reflexivity]
  end.
Qed.

(** C8, as the code has it.  A probe that runs and ends with a non-zero
    status means "no pipefail": [_shell_support_pipefail] returns [False],
    the rules [cc] and [cxx] get the portable template and
    [generate_cc_rules] returns (when the debug level is a key of the
    table).  A probe that cannot be started is different: [subprocess.call]
    raises, nothing catches the exception, so [_shell_support_pipefail],
    [generate_cc_rules] and the whole pass raise and no script is written. *)
Theorem shell_probe_outcomes (w : world) (cfg : config) (st : generator) :
  (∀ status options,
     subprocess_call w "set -o pipefail 2>/dev/null" = Returned status →
     status ≠ 0 →
     cc_debug_info_levels cfg !! debug_info_level cfg = Some options →
     _shell_support_pipefail w st = Ok (false, st) ∧
     ∃ (st' : generator) (vars cc_command cxx_command : string) (after : list string),
       generate_cc_rules w cfg st = Ok (tt, st') ∧
       rules_buf st' =
         rules_buf st ++ [vars] ++
         rule_block w "cc" (template false cc_command) (Some "CC ${in}")
           (Some "${out}.d") false None false None None (Some "gcc") ++
         rule_block w "cxx" (template false cxx_command) (Some "CXX ${in}")
           (Some "${out}.d") false None false None None (Some "gcc") ++
         after) ∧
  (subprocess_call w "set -o pipefail 2>/dev/null" = SpawnFailed →
     _shell_support_pipefail w st = Raise OSError ∧
     raises (generate_cc_rules w cfg st) = true ∧
     raises (generate w cfg init) = true ∧
     raises (generate_build_script w cfg) = true).
Proof.
  split.
  - intros status options Hprobe Hstatus Hlevel.
    assert ((status =? 0) = false) as Hzero by (apply Z.eqb_neq, Hstatus).
    split.
    + unfold _shell_support_pipefail. rewrite Hprobe, ret_run, Hzero. reflexivity.
    + pose proof (generate_cc_rules_compile_rules w cfg st options status Hlevel Hprobe)
        as H.
      rewrite Hzero in H. exact H.
  - intros Hprobe.
    assert (∀ s, raises (generate_cc_rules w cfg s) = true) as Hcc.
    { intros s. rewrite generate_cc_rules_spawn_failed by exact Hprobe.
      destruct (cc_debug_info_levels cfg !! debug_info_level cfg); reflexivity. }
    split; [unfold _shell_support_pipefail; rewrite Hprobe; reflexivity|].
    split; [apply Hcc|].
    split; [apply generate_raises_at_cc, Hcc|].
    apply generate_build_script_raises, generate_raises_at_cc, Hcc.
Qed.

(** ** The header inclusion filter *)

Lemma length_append (s t : string) :
  String.length (s +:+ t) = (String.length s + String.length t)%nat.
Proof. induction s as [|c s IH]; simpl; [reflexivity|]. f_equal. exact IH. Qed.

Lemma template_variants_differ (command : string) :
  template true command ≠ template false command.
Proof.
  intros H. apply (f_equal String.length) in H. unfold template in H.
  rewrite !length_append in H. cbn [String.length] in H.
  revert H. generalize (String.length command), (String.length awk_script).
  intros n m H. lia.
Qed.

(** Once [stop] is set nothing more is printed. *)
Lemma awk_stopped (lines : list string) (s : awk_state) :
  stop s = true → fold_left awk_record lines s = s.
Proof.
  revert s. induction lines as [|l lines IH]; intros s Hs; [reflexivity|].
  cbn [fold_left]. assert (awk_record s l = s) as ->; [|apply IH, Hs].
  unfold awk_record. rewrite Hs. destruct (is_sentinel l), s; cbn in *; subst; reflexivity.
Qed.

(** Before the sentinel each line goes to exactly one of the two streams. *)
Lemma awk_before_sentinel (lines : list string) (s : awk_state) :
  stop s = false →
  Forall (λ l, is_sentinel l = false) lines →
  fold_left awk_record lines s =
  {| stop := false;
     to_stdout := to_stdout s ++ List.filter dots_field lines;
     to_stderr := to_stderr s ++ List.filter (λ l, negb (dots_field l)) lines |}.
Proof.
  revert s. induction lines as [|l lines IH]; intros s Hs Hlines.
  - cbn. rewrite !app_nil_r. destruct s; cbn in *; subst; reflexivity.
  - apply Forall_cons in Hlines as [Hl Hlines]. cbn [fold_left List.filter].
    rewrite IH; [|unfold awk_record; rewrite Hl, Hs; cbn; destruct (dots_field l);
                   reflexivity|exact Hlines].
    unfold awk_record. rewrite Hl, Hs. cbn [negb].
    destruct (dots_field l); cbn [negb stop to_stdout to_stderr];
      rewrite <- ?app_assoc; reflexivity.
Qed.

Lemma awk_run_sentinel (before after : list string) (tail : string) :
  Forall (λ l, is_sentinel l = false) before →
  awk_run (before ++ (sentinel +:+ tail) :: after) =
  {| stop := true;
     to_stdout := List.filter dots_field before;
     to_stderr := List.filter (λ l, negb (dots_field l)) before |}.
Proof.
  intros Hbefore. unfold awk_run. rewrite fold_left_app.
  rewrite (awk_before_sentinel before
             {| stop := false; to_stdout := []; to_stderr := [] |} eq_refl Hbefore).
  cbn [fold_left to_stdout to_stderr app].
  assert (is_sentinel (sentinel +:+ tail) = true) as Hs by apply startswith_app.
  rewrite awk_stopped; unfold awk_record; rewrite Hs; reflexivity.
Qed.

(** C3, as the code has it.  The template is chosen once, by the status of
    the probe, and used for both compile rules; its two values differ for
    every command, and both run the same awk program with its standard
    output redirected to [${out}.H].  On a diagnostic stream with a line
    that begins with the sentinel text, that output consists of the lines
    before the first such line whose first blank-separated field is a run
    of dots and nothing else, in order; the other lines before the
    sentinel go to the standard error, and the sentinel and what follows
    it go nowhere.  A line that merely starts with dots, such as a
    diagnostic on [../x.h], is not part of the side file. *)
Theorem header_capture_spec (w : world) (cfg : config) (st : generator)
    (options : list string) (status : Z) (before after : list string) (tail : string) :
  cc_debug_info_levels cfg !! debug_info_level cfg = Some options →
  subprocess_call w "set -o pipefail 2>/dev/null" = Returned status →
  Forall (λ l, is_sentinel l = false) before →
  (∃ (st' : generator) (vars cc_command cxx_command : string) (rest : list string),
     generate_cc_rules w cfg st = Ok (tt, st') ∧
     rules_buf st' =
       rules_buf st ++ [vars] ++
       rule_block w "cc" (template (status =? 0) cc_command) (Some "CC ${in}")
         (Some "${out}.d") false None false None None (Some "gcc") ++
       rule_block w "cxx" (template (status =? 0) cxx_command) (Some "CXX ${in}")
         (Some "${out}.d") false None false None None (Some "gcc") ++
       rest) ∧
  (∀ command,
     template true command ≠ template false command ∧
     template true command =
       "set -o pipefail && " +:+ command +:+ " -H 2>&1 | awk " +:+ awk_script +:+
       " > ${out}.H" ∧
     template false command =
       command +:+ " -H 2> ${out}.err && awk " +:+ awk_script +:+
       " < ${out}.err > ${out}.H && rm -f ${out}.err") ∧
  to_stdout (awk_run (before ++ (sentinel +:+ tail) :: after)) =
    List.filter dots_field before ∧
  to_stderr (awk_run (before ++ (sentinel +:+ tail) :: after)) =
    List.filter (λ l, negb (dots_field l)) before.
Proof.
  intros Hlevel Hprobe Hbefore.
  split; [exact (generate_cc_rules_compile_rules w cfg st options status Hlevel Hprobe)|].
  split.
  - intros command. split; [apply template_variants_differ|]. split; reflexivity.
  - rewrite awk_run_sentinel by exact Hbefore. split; reflexivity.
Qed.

(** ** The preprocessing command *)

Lemma append_assoc (a b c : string) : (a +:+ b) +:+ c = a +:+ (b +:+ c).
Proof.
  induction a as [|x a IH]; [reflexivity|].
  change (String x ((a +:+ b) +:+ c) = String x (a +:+ (b +:+ c))).
  rewrite IH. reflexivity.
Qed.

(** Two strings with suffixes of the same length are equal only when the
    suffixes are. *)
Lemma append_suffix_inj (a b s t : string) :
  String.length s = String.length t → a +:+ s = b +:+ t → s = t.
Proof.
  intros Hlen. revert b. induction a as [|x a IH]; intros [|y b] H.
  - exact H.
  - apply (f_equal String.length) in H. rewrite !length_append in H.
    cbn [String.length] in H. lia.
  - apply (f_equal String.length) in H. rewrite !length_append in H.
    cbn [String.length] in H. lia.
  - change (String x (a +:+ s) = String y (b +:+ t)) in H.
    injection H as _ H. apply (IH b H).
Qed.

(** A compile command is never a command of [_hdrs_command]: the first
    ends with the input, the second with the redirection to [${out}]. *)
Lemma compile_command_is_not_hdrs_command (compiler : string) (flags cppflags : list string)
    (warnings includes cc' : string) (flags' cppflags' : list string) (includes' : string)
    (pipefail : bool) :
  compile_command compiler flags cppflags warnings includes ≠
    _hdrs_command cc' flags' cppflags' includes' ∧
  template pipefail (compile_command compiler flags cppflags warnings includes) ≠
    _hdrs_command cc' flags' cppflags' includes'.
Proof.
  split.
  - unfold compile_command, _hdrs_command. cbv zeta. intros H.
    change " ${includes} ${in}" with (" ${includes}" +:+ " ${in}") in H.
    change " ${includes} ${in} 2> ${out}" with (" ${includes} ${in} 2> " +:+ "${out}") in H.
    rewrite <- !append_assoc in H.
    apply append_suffix_inj in H; [discriminate H|reflexivity].
  - unfold template, _hdrs_command. cbv zeta. intros H.
    change " ${includes} ${in} 2> ${out}" with (" ${includes} ${in} 2> " +:+ "${out}") in H.
    destruct pipefail.
    + change " > ${out}.H" with (" > ${" +:+ "out}.H") in H.
      rewrite <- !append_assoc in H.
      apply append_suffix_inj in H; [discriminate H|reflexivity].
    + change " < ${out}.err > ${out}.H && rm -f ${out}.err"
        with (" < ${out}.err > ${out}.H && rm -f ${ou" +:+ "t}.err") in H.
      rewrite <- !append_assoc in H.
      apply append_suffix_inj in H; [discriminate H|reflexivity].
Qed.

(** The commands of the rules [cc] and [cxx], in full. *)
Lemma generate_cc_rules_compile_commands (w : world) (cfg : config) (st : generator)
    (options : list string) (status : Z) :
  cc_debug_info_levels cfg !! debug_info_level cfg = Some options →
  subprocess_call w "set -o pipefail 2>/dev/null" = Returned status →
  ∃ (st' : generator) (vars : string) (cppflags rest : list string),
    generate_cc_rules w cfg st = Ok (tt, st') ∧
    rules_buf st' =
      rules_buf st ++ [vars] ++
      rule_block w "cc"
        (template (status =? 0)
           (compile_command (get_cc_commands w).1.1 (cc_cflags cfg)
              (cc_cppflags cfg ++ cppflags) "${c_warnings}" (cc_includes w cfg)))
        (Some "CC ${in}") (Some "${out}.d") false None false None None (Some "gcc") ++
      rule_block w "cxx"
        (template (status =? 0)
           (compile_command (get_cc_commands w).1.2 (cc_cxxflags cfg)
              (cc_cppflags cfg ++ cppflags) "${cxx_warnings}" (cc_includes w cfg)))
        (Some "CXX ${in}") (Some "${out}.d") false None false None None (Some "gcc") ++
      rest.
Proof.
  intros Hlevel Hprobe. unfold generate_cc_rules.
  destruct (get_cc_commands w) as [[cc cxx] ld]. cbn [fst snd].
  rewrite bind_run.
  assert (∃ flags, _get_cc_flags w cfg st = Ok (flags, st)) as [[cppflags ldflags] ->].
  { unfold _get_cc_flags, py_getitem. rewrite Hlevel.
    destruct (truthy (options_m cfg)), (options_gprof cfg), (options_coverage cfg);
      eexists; reflexivity. }
  unfold generate_cc_vars.
  destruct (_get_warning_flags w cfg) as [[warnings cxx_warnings] c_warnings].
  cbv zeta. run_generator.
  unfold _shell_support_pipefail. rewrite Hprobe. run_generator.
  destruct (truthy (link_jobs cfg)).
  - unfold console_info. run_generator.
    match goal with
    | |- context [(((((((((rules_buf st ++ [?v]) ++ _) ++ _) ++ ?b3) ++ ?b4) ++ ?b5)
                    ++ ?b6) ++ ?b7) ++ ?b8) ++ ?b9] =>
        eexists; exists v, cppflags, (b3 ++ b4 ++ b5 ++ b6 ++ b7 ++ b8 ++ b9)
    end.
    split; [reflexivity|]. cbn [rules_buf]. rewrite <- !app_assoc. reflexivity.
  - run_generator.
    match goal with
    | |- context [((((((((rules_buf st ++ [?v]) ++ _) ++ _) ++ ?b3) ++ ?b4) ++ ?b5)
                    ++ ?b7) ++ ?b8) ++ ?b9] =>
        eexists; exists v, cppflags, (b3 ++ b4 ++ b5 ++ b7 ++ b8 ++ b9)
    end.
    split; [reflexivity|]. cbn [rules_buf]. rewrite <- !app_assoc. reflexivity.
Qed.

(** C6, as the code has it.  [_hdrs_command] returns the or-list of a fast
    attempt with [-fdirectives-only] and a full attempt that is the same
    command without that flag: run by a shell, a fast attempt that fails is
    followed by the full attempt, whose status is the status of the list,
    and a fast attempt that succeeds ends the list.  The rules [cc] and
    [cxx], which capture the inclusion information, are not built from it:
    their command is the chosen template around one run of the compiler,
    [<compiler> -o ${out} -MMD -MF ${out}.d -c -fPIC ... ${in}], and such a
    command is never a result of [_hdrs_command]. *)
Theorem hdrs_command_spec (w : world) (cfg : config) (st : generator)
    (cc : string) (flags cppflags : list string) (includes : string) :
  (let fast := cc +:+ " -fdirectives-only " +:+ hdrs_args flags cppflags includes in
   let full := cc +:+ " " +:+ hdrs_args flags cppflags includes in
   _hdrs_command cc flags cppflags includes = sh_text (OrList (Simple fast) (Simple full)) ∧
   (∀ exec : string → Z, exec fast ≠ 0 →
      sh_run exec (OrList (Simple fast) (Simple full)) = (exec full, [fast; full])) ∧
   (∀ exec : string → Z, exec fast = 0 →
      sh_run exec (OrList (Simple fast) (Simple full)) = (0, [fast]))) ∧
  (∀ options status,
     cc_debug_info_levels cfg !! debug_info_level cfg = Some options →
     subprocess_call w "set -o pipefail 2>/dev/null" = Returned status →
     ∃ (st' : generator) (vars : string) (flags' rest : list string),
       generate_cc_rules w cfg st = Ok (tt, st') ∧
       rules_buf st' =
         rules_buf st ++ [vars] ++
         rule_block w "cc"
           (template (status =? 0)
              (compile_command (get_cc_commands w).1.1 (cc_cflags cfg)
                 (cc_cppflags cfg ++ flags') "${c_warnings}" (cc_includes w cfg)))
           (Some "CC ${in}") (Some "${out}.d") false None false None None (Some "gcc") ++
         rule_block w "cxx"
           (template (status =? 0)
              (compile_command (get_cc_commands w).1.2 (cc_cxxflags cfg)
                 (cc_cppflags cfg ++ flags') "${cxx_warnings}" (cc_includes w cfg)))
           (Some "CXX ${in}") (Some "${out}.d") false None false None None (Some "gcc") ++
         rest) ∧
  (∀ compiler lang_flags cpp warnings incs pipefail,
     compile_command compiler lang_flags cpp warnings incs ≠
       _hdrs_command cc flags cppflags includes ∧
     template pipefail (compile_command compiler lang_flags cpp warnings incs) ≠
       _hdrs_command cc flags cppflags includes).
Proof.
  split; [|split].
  - cbv zeta. split; [reflexivity|]. split.
    + intros exec Hfast. cbn [sh_run].
      apply Z.eqb_neq in Hfast. rewrite Hfast. reflexivity.
    + intros exec Hfast. cbn [sh_run]. rewrite Hfast. reflexivity.
  - intros options status. apply generate_cc_rules_compile_commands.
  - intros compiler lang_flags cpp warnings incs pipefail.
    apply compile_command_is_not_hdrs_command.
Qed.

(** ** The properties on the concrete pass *)

(** Declaring [copy] twice is accepted: the second call returns normally
    and the buffer holds two blocks for the one name. *)
Lemma duplicate_rule_is_not_rejected :
  ∃ st1 st2 : generator,
    generate_common_rules sample_world init = Ok (tt, st1) ∧
    "copy" ∈ all_rule_names st1 ∧
    generate_common_rules sample_world st1 = Ok (tt, st2) ∧
    rules_buf st2 = block_of sample_world copy_call ++ block_of sample_world copy_call.
Proof.
  eexists _, _. unfold generate_common_rules.
  split; [apply generate_rule_run|].
  split; [apply elem_of_union_l, elem_of_singleton_2; reflexivity|].
  split; [apply generate_rule_run|reflexivity].
Qed.

Lemma generate_rule_accepts_duplicate_witness :
  "copy" ∈ all_rule_names
             {| rules_buf := block_of sample_world copy_call;
                all_rule_names := {[ "copy" ]} |} ∧
  declare sample_world copy_call
    {| rules_buf := block_of sample_world copy_call; all_rule_names := {[ "copy" ]} |} =
  Ok (tt, {| rules_buf := block_of sample_world copy_call ++ block_of sample_world copy_call;
             all_rule_names := {[ "copy" ]} |}).
Proof.
  assert ("copy" ∈ all_rule_names
                     {| rules_buf := block_of sample_world copy_call;
                        all_rule_names := {[ "copy" ]} |}) as Hin
    by (cbn [all_rule_names]; apply elem_of_singleton_2; reflexivity).
  split; [exact Hin|].
  exact (generate_rule_accepts_duplicate sample_world copy_call _ Hin).
Defined.

(** With module mode on and a module-relative path set, the [protogo] rule
    writes to [<go_home>/src], not to [protobuf_go_path]. *)
Lemma protogo_ignores_go_path_with_relpath :
  truthy (protoc_go_plugin sample_config) = true ∧
  go_module_enabled sample_config = true ∧
  go_module_relpath sample_config = Some "mod" ∧
  protobuf_go_path sample_config = "proto/go" ∧
  rule_command "protogo" (rules_of (generate sample_world sample_config init)) =
    Some (("  command = protoc --proto_path=. -I=thirdparty -I=`dirname ${in}` " +:+
           "--plugin=protoc-gen-go=protoc-gen-go --go_out=/go/src ${in}") +:+ nl).
Proof. vm_compute. repeat split; reflexivity. Qed.

Lemma protogo_output_directory_witness :
  truthy (protoc_go_plugin sample_config) = true ∧
  truthy (go_home sample_config) = true ∧
  ∃ st' : generator, generate_proto_rules sample_world sample_config init = Ok (tt, st').
Proof.
  split; [reflexivity|]. split; [reflexivity|].
  destruct (protogo_output_directory sample_world sample_config init eq_refl eq_refl)
    as (st' & _ & _ & H & _).
  exists st'. exact H.
Defined.

(** A diagnostic on [../util/log.h] starts with dots and precedes the
    sentinel, yet it is not written to the side file. *)
Lemma dotted_diagnostic_is_not_captured :
  to_stdout (awk_run sample_diagnostics) =
    [". /usr/include/stdio.h"; ".. /usr/include/features.h"] ∧
  List.filter (startswith ".") sample_diagnostics_before =
    ["../util/log.h:3:9: warning: unused variable";
     ". /usr/include/stdio.h";
     ".. /usr/include/features.h"] ∧
  to_stdout (awk_run sample_diagnostics) ≠
    List.filter (startswith ".") sample_diagnostics_before.
Proof. vm_compute. repeat split; [discriminate]. Qed.

Lemma header_capture_spec_witness :
  Forall (λ l, is_sentinel l = false) sample_diagnostics_before ∧
  to_stdout (awk_run sample_diagnostics) = List.filter dots_field sample_diagnostics_before.
Proof.
  assert (Forall (λ l, is_sentinel l = false) sample_diagnostics_before) as Hbefore
    by (repeat constructor).
  split; [exact Hbefore|].
  exact (proj1 (proj2 (proj2
           (header_capture_spec sample_world sample_config init ["-g"] 0
              sample_diagnostics_before ["/usr/include/features.h"] ""
              eq_refl eq_refl Hbefore)))).
Defined.

Lemma link_pool_spec_witness :
  ∃ (st' : generator) (compile_part : list string),
    generate_cc_rules sample_world sample_config init = Ok (tt, st') ∧
    Forall (pool_free "link_pool") compile_part.
Proof.
  destruct (generate_cc_rules sample_world sample_config init) as [[[] st']|e] eqn:Hrun.
  - destruct (link_pool_spec sample_world sample_config init st' Hrun)
      as (compile_part & _ & _ & Hfree & _).
    exists st', compile_part. split; [reflexivity|exact Hfree].
  - vm_compute in Hrun. discriminate Hrun.
Defined.

Lemma go_plugin_without_go_home_is_fatal_witness :
  truthy (protoc_go_plugin homeless_config) = true ∧
  truthy (go_home homeless_config) = false ∧
  raises (generate_build_script sample_world homeless_config) = true.
Proof.
  split; [reflexivity|]. split; [reflexivity|].
  exact (proj2 (proj2
           (go_plugin_without_go_home_is_fatal sample_world homeless_config init
              eq_refl eq_refl))).
Defined.

(** In the script of the concrete pass the rules that capture the inclusion
    information run the compiler once: no command has [-fdirectives-only],
    and the commands of [cc] and [cxx] have no [||]. *)
Lemma compile_rules_have_no_fallback :
  let rules := rules_of (generate sample_world sample_config init) in
  (∃ command, rule_command "cc" rules = Some command ∧
     contains "${out}.H" command = true ∧
     contains "||" command = false ∧
     contains "-fdirectives-only" command = false) ∧
  (∃ command, rule_command "cxx" rules = Some command ∧
     contains "${out}.H" command = true ∧
     contains "||" command = false ∧
     contains "-fdirectives-only" command = false) ∧
  length rules = 176%nat ∧
  forallb (λ e, negb (contains "-fdirectives-only" e)) rules = true.
Proof.
  cbv zeta. split; [|split; [|split]].
  - eexists. split; [vm_compute; reflexivity|]. vm_compute. repeat split.
  - eexists. split; [vm_compute; reflexivity|]. vm_compute. repeat split.
  - vm_compute. reflexivity.
  - vm_compute. reflexivity.
Qed.

Lemma hdrs_command_spec_witness :
  cc_debug_info_levels sample_config !! debug_info_level sample_config = Some ["-g"] ∧
  subprocess_call sample_world "set -o pipefail 2>/dev/null" = Returned 0 ∧
  ∃ st' : generator, generate_cc_rules sample_world sample_config init = Ok (tt, st').
Proof.
  split; [reflexivity|]. split; [reflexivity|].
  destruct (proj1 (proj2 (hdrs_command_spec sample_world sample_config init
                            "gcc" ["-std=c99"] ["-DNDEBUG"] "-I."))
              ["-g"] 0 eq_refl eq_refl)
    as (st' & _ & _ & _ & H & _).
  exists st'. exact H.
Defined.

Lemma generate_go_rules_spec_witness :
  (truthy (go_home plain_config) = false ∨ truthy (go_config_go plain_config) = false) ∧
  generate_go_rules sample_world plain_config init = Ok (tt, init) ∧
  truthy (go_home sample_config) = true ∧
  truthy (go_config_go sample_config) = true ∧
  ∃ st' : generator, generate_go_rules sample_world sample_config init = Ok (tt, st').
Proof.
  split; [left; reflexivity|].
  split; [exact (proj1 (generate_go_rules_spec sample_world plain_config init)
                   (or_introl eq_refl))|].
  split; [reflexivity|]. split; [reflexivity|].
  destruct (proj2 (generate_go_rules_spec sample_world sample_config init) eq_refl eq_refl)
    as (prefix & out_relative & H).
  eexists. exact H.
Defined.

(** When no shell can be started the pass raises [OSError]. *)
Lemma probe_failure_aborts_generation :
  subprocess_call shellless_world "set -o pipefail 2>/dev/null" = SpawnFailed ∧
  generate shellless_world sample_config init = Raise OSError ∧
  generate_build_script shellless_world sample_config = Raise OSError.
Proof. vm_compute. repeat split. Qed.

Lemma shell_probe_outcomes_witness :
  subprocess_call dash_world "set -o pipefail 2>/dev/null" = Returned 2 ∧
  (∃ st' : generator, generate_cc_rules dash_world sample_config init = Ok (tt, st')) ∧
  subprocess_call shellless_world "set -o pipefail 2>/dev/null" = SpawnFailed ∧
  raises (generate shellless_world sample_config init) = true.
Proof.
  split; [reflexivity|]. split.
  - assert (2 ≠ 0) as Hne by discriminate.
    destruct (proj1 (shell_probe_outcomes dash_world sample_config init)
                2 ["-g"] eq_refl Hne eq_refl)
      as (_ & st' & _ & _ & _ & _ & H & _).
    exists st'. exact H.
  - split; [reflexivity|].
    exact (proj1 (proj2 (proj2 (shell_probe_outcomes shellless_world sample_config init)
                           eq_refl))).
Defined.

Lemma pools_are_declared_before_use_witness :
  ∃ (rules : list string) (st : generator),
    generate sample_world sample_config init = Ok (rules, st) ∧
    pools_declared_before_use rules.
Proof.
  destruct (generate sample_world sample_config init) as [[rules st]|e] eqn:Hrun.
  - exists rules, st. split; [reflexivity|].
    exact (proj1 (pools_are_declared_before_use sample_world sample_config rules st Hrun)).
  - vm_compute in Hrun. discriminate Hrun.
Defined.

(** * Further properties of the generator *)

(** ** Total correctness rules *)

Lemma rule_headers_app (l k : list string) :
  rule_headers (l ++ k) = rule_headers l ++ rule_headers k.
Proof. apply List.filter_app. Qed.

Lemma pool_entries_app (l k : list string) :
  pool_entries (l ++ k) = pool_entries l ++ pool_entries k.
Proof. apply List.filter_app. Qed.

Lemma returns_ret {A} (a : A) : returns [] [] (mret a : M A).
Proof.
  intros st. exists a, st. split; [reflexivity|]. split; [reflexivity|].
  cbn [map list_to_set]. rewrite !app_nil_r, (left_id_L ∅ (∪)). repeat split.
Qed.

Lemma returns_bind {A B} (n1 n2 p1 p2 : list string) (m : M A) (f : A → M B) :
  returns n1 p1 m → (∀ a, returns n2 p2 (f a)) →
  returns (n1 ++ n2) (p1 ++ p2) (m ≫= f).
Proof.
  intros Hm Hf st. destruct (Hm st) as (a & st1 & Hrun1 & Hpre1 & Hhd1 & Hnm1 & Hpl1).
  destruct (Hf a st1) as (b & st2 & Hrun2 & Hpre2 & Hhd2 & Hnm2 & Hpl2).
  exists b, st2. rewrite bind_run, Hrun1. split; [exact Hrun2|].
  split; [etrans; eassumption|]. split; [|split].
  - rewrite Hhd2, Hhd1, map_app, app_assoc. reflexivity.
  - rewrite Hnm2, Hnm1, list_to_set_app_L.
    rewrite (comm_L (∪) (list_to_set n1) (list_to_set n2)), (assoc_L (∪)). reflexivity.
  - rewrite Hpl2, Hpl1, app_assoc. reflexivity.
Qed.

Lemma returns_eq {A} (n n' p p' : list string) (m : M A) :
  returns n p m → n = n' → p = p' → returns n' p' m.
Proof. intros H <- <-. exact H. Qed.

Lemma returns_add_rule (text : string) :
  is_rule_header (text +:+ nl) = false →
  returns [] (pool_entries [text +:+ nl]) (_add_rule text).
Proof.
  intros Htext st. eexists tt, _. split; [apply add_rule_run|].
  cbn [rules_buf all_rule_names map list_to_set].
  split; [apply prefix_app_r; reflexivity|]. split; [|split].
  - rewrite rule_headers_app. unfold rule_headers at 2. cbn [List.filter].
    rewrite Htext. reflexivity.
  - rewrite (left_id_L ∅ (∪)). reflexivity.
  - apply pool_entries_app.
Qed.

(** A rule block has one header, that of its name, and declares no pool. *)
Lemma rule_block_headers w name command description depfile gen pool restat
    rspfile rspfile_content deps :
  rule_headers (rule_block w name command description depfile gen pool restat
                  rspfile rspfile_content deps) = [rule_header name] ∧
  pool_entries (rule_block w name command description depfile gen pool restat
                  rspfile rspfile_content deps) = [].
Proof.
  unfold rule_block. rewrite !rule_headers_app, !pool_entries_app.
  destruct (truthy description), (truthy depfile), gen, (truthy pool), restat,
    (truthy rspfile), (truthy rspfile_content), (truthy deps);
    split; reflexivity.
Qed.

Lemma returns_generate_rule w name command description depfile gen pool restat
    rspfile rspfile_content deps :
  returns [name] []
    (generate_rule w name command description depfile gen pool restat
       rspfile rspfile_content deps).
Proof.
  intros st. eexists tt, _. split; [apply generate_rule_run|].
  cbn [rules_buf all_rule_names map list_to_set].
  destruct (rule_block_headers w name command description depfile gen pool restat
              rspfile rspfile_content deps) as [Hheaders Hpools].
  split; [apply prefix_app_r; reflexivity|]. split; [|split].
  - rewrite rule_headers_app, Hheaders. reflexivity.
  - rewrite (right_id_L ∅ (∪)). reflexivity.
  - rewrite pool_entries_app, Hpools, app_nil_r. reflexivity.
Qed.

Lemma returns_when (n p : list string) (c : bool) (body : M unit) :
  (c = true → returns n p body) →
  returns (if c then n else []) (if c then p else []) (when c body).
Proof.
  intros H. destruct c; cbn [when]; [apply H; reflexivity|apply returns_ret].
Qed.

Lemma returns_when_false (c : bool) (body : M unit) :
  c = false → returns [] [] (when c body).
Proof. intros ->. apply returns_ret. Qed.

Lemma returns_console_info (msg : string) : returns [] [] (console_info msg).
Proof. apply returns_ret. Qed.

(** One step of a proof that a generator returns and declares its rules. *)
Ltac returns_step :=
  lazymatch goal with
  | H : returns _ _ ?m |- returns _ _ ?m => exact H
  | |- returns _ _ (generate_rule _ _ _ _ _ _ _ _ _ _ _) => apply returns_generate_rule
  | |- returns _ _ (_add_rule _) => apply returns_add_rule; lazy; reflexivity
  | |- returns _ _ (console_info _) => apply returns_console_info
  | |- returns _ _ (mbind _ _) => eapply returns_bind; [|intros ?]
  | |- returns _ _ (mret _) => apply returns_ret
  end.

Ltac returns_auto :=
  eapply returns_eq; [repeat returns_step|reflexivity|lazy; reflexivity].

Section GeneratorsReturn.

Context (w : world) (cfg : config).

Lemma generate_file_header_returns :
  returns [] [("pool heavy_pool" +:+ nl +:+ "  depth = 1" +:+ nl) +:+ nl]
    (generate_file_header w).
Proof. unfold generate_file_header. returns_auto. Qed.

Lemma generate_common_rules_returns : returns ["copy"] [] (generate_common_rules w).
Proof. unfold generate_common_rules. returns_auto. Qed.

Lemma generate_resource_rules_returns :
  returns ["resource_index"; "resource"] [] (generate_resource_rules w).
Proof. unfold generate_resource_rules. cbv zeta. returns_auto. Qed.

Lemma generate_java_scala_rules_returns :
  returns ["javac"; "javaresource"; "javajar"; "javatest"; "fatjar"; "onejar";
           "javabinary"; "scalac"; "scalatest"] []
    (generate_java_scala_rules w cfg).
Proof.
  unfold generate_java_scala_rules, generate_javac_rules,
    generate_java_resource_rules, generate_java_test_rules,
    generate_java_binary_rules, generate_scalac_rule, generate_scalatest_rule.
  cbv zeta. returns_auto.
Qed.

Lemma generate_thrift_rules_returns : returns ["thrift"] [] (generate_thrift_rules w cfg).
Proof. unfold generate_thrift_rules. cbv zeta. returns_auto. Qed.

Lemma generate_python_rules_returns :
  returns ["pythonlibrary"; "pythonbinary"] [] (generate_python_rules w).
Proof. unfold generate_python_rules. cbv zeta. returns_auto. Qed.

Lemma generate_go_rules_returns :
  returns (if truthy (go_home cfg) && truthy (go_config_go cfg)
           then ["gopackage"; "gocommand"; "gotest"] else [])
          (if truthy (go_home cfg) && truthy (go_config_go cfg)
           then [("pool golang_pool" +:+ nl +:+ "  depth = 1" +:+ nl) +:+ nl] else [])
    (generate_go_rules w cfg).
Proof.
  unfold generate_go_rules. cbv zeta. apply returns_when. intros _.
  destruct (if go_module_enabled cfg then _ else _) as [prefix out_relative].
  returns_auto.
Qed.

Lemma generate_shell_rules_returns :
  returns ["shelltest"; "shelltestdata"] [] (generate_shell_rules w).
Proof. unfold generate_shell_rules. cbv zeta. returns_auto. Qed.

Lemma generate_lex_yacc_rules_returns :
  returns ["lex"; "yacc"] [] (generate_lex_yacc_rules w).
Proof. unfold generate_lex_yacc_rules. returns_auto. Qed.

Lemma generate_package_rules_returns :
  returns ["package"; "package_tar"; "package_zip"] [] (generate_package_rules w).
Proof. unfold generate_package_rules. cbv zeta. returns_auto. Qed.

Lemma generate_version_rules_returns : returns ["scm"] [] (generate_version_rules w cfg).
Proof.
  unfold generate_version_rules.
  destruct (load_scm w (build_dir w)) as [revision url].
  cbv zeta. returns_auto.
Qed.

End GeneratorsReturn.

Lemma returns_pure {A} (m : M A) :
  (∀ st, ∃ a, m st = Ok (a, st)) → returns [] [] m.
Proof.
  intros Hm st. destruct (Hm st) as [a Ha]. exists a, st.
  split; [exact Ha|]. split; [reflexivity|].
  cbn [map list_to_set]. rewrite !app_nil_r, (left_id_L ∅ (∪)). repeat split.
Qed.

Lemma get_cc_flags_ok (w : world) (cfg : config) (options : list string) :
  cc_debug_info_levels cfg !! debug_info_level cfg = Some options →
  ∀ st, ∃ flags, _get_cc_flags w cfg st = Ok (flags, st).
Proof.
  intros Hlevel st. unfold _get_cc_flags, py_getitem. rewrite Hlevel.
  destruct (truthy (options_m cfg)), (options_gprof cfg), (options_coverage cfg);
    eexists; reflexivity.
Qed.

Lemma generate_cc_rules_key_error (w : world) (cfg : config) (st : generator) :
  cc_debug_info_levels cfg !! debug_info_level cfg = None →
  generate_cc_rules w cfg st = Raise (KeyError (debug_info_level cfg)).
Proof.
  intros Hlevel. unfold generate_cc_rules.
  destruct (get_cc_commands w) as [[cc cxx] ld].
  rewrite bind_run. unfold _get_cc_flags at 1, py_getitem. rewrite Hlevel.
  destruct (truthy (options_m cfg)); reflexivity.
Qed.

Lemma generate_cc_rules_returns (w : world) (cfg : config)
    (options : list string) (status : Z) :
  cc_debug_info_levels cfg !! debug_info_level cfg = Some options →
  subprocess_call w "set -o pipefail 2>/dev/null" = Returned status →
  returns ["cc"; "cxx"; "securecccompile"; "securecc"; "ar"; "link"; "solink"; "strip"]
    (if truthy (link_jobs cfg)
     then [("pool link_pool" +:+ nl +:+ "  depth = " +:+
            py_str (Z.min (default 0 (link_jobs cfg)) (build_jobs_num w))) +:+ nl]
     else [])
    (generate_cc_rules w cfg).
Proof.
  intros Hlevel Hprobe.
  assert (returns [] [] (_get_cc_flags w cfg)) as Hflags
    by (apply returns_pure, (get_cc_flags_ok w cfg options Hlevel)).
  assert (returns [] [] (_shell_support_pipefail w)) as Hshell.
  { apply returns_pure. intros st. unfold _shell_support_pipefail. rewrite Hprobe.
    eexists. reflexivity. }
  assert (returns [] [] (generate_cc_vars w cfg)) as Hvars.
  { unfold generate_cc_vars.
    destruct (_get_warning_flags w cfg) as [[warnings cxx_warnings] c_warnings].
    cbv zeta. returns_auto. }
  unfold generate_cc_rules.
  destruct (get_cc_commands w) as [[cc cxx] ld]. cbv zeta.
  eapply returns_eq.
  - eapply returns_bind; [exact Hflags|]. intros [cppflags ldflags].
    do 7 (eapply returns_bind; [returns_step|intros ?]).
    eapply (returns_bind []
              ["link"; "solink"; "strip"]
              (if truthy (link_jobs cfg)
               then [("pool link_pool" +:+ nl +:+ "  depth = " +:+
                      py_str (Z.min (default 0 (link_jobs cfg)) (build_jobs_num w))) +:+ nl]
               else [])
              []).
    + destruct (truthy (link_jobs cfg)); [|apply returns_ret].
      eapply returns_eq; [repeat returns_step|reflexivity|lazy; reflexivity].
    + intros pool. eapply returns_eq; [repeat returns_step|reflexivity|reflexivity].
  - reflexivity.
  - cbn [app]. rewrite app_nil_r. reflexivity.
Qed.

Lemma generate_proto_rules_returns (w : world) (cfg : config) :
  truthy (protoc_go_plugin cfg) && negb (truthy (go_home cfg)) = false →
  returns (["proto"; "protojava"; "protopython"; "protodescriptors"] ++
           (if truthy (protoc_go_plugin cfg) then ["protogo"] else []))
          []
    (generate_proto_rules w cfg).
Proof.
  intros Hcfg. unfold generate_proto_rules. cbv zeta.
  eapply returns_eq.
  - do 5 (eapply returns_bind; [returns_step|intros ?]).
    apply (returns_when ["protogo"] []). intros Hplugin. rewrite Hplugin in Hcfg.
    eapply (returns_bind [] ["protogo"] [] []); [apply returns_when_false, Hcfg|intros ?].
    returns_step.
  - reflexivity.
  - cbn [pool_entries List.filter app]. destruct (truthy (protoc_go_plugin cfg)); reflexivity.
Qed.

(** What a pass does, from any state of the generator. *)
Lemma generate_run (w : world) (cfg : config) (st : generator) :
  match cc_debug_info_levels cfg !! debug_info_level cfg with
  | None => generate w cfg st = Raise (KeyError (debug_info_level cfg))
  | Some _ =>
      match subprocess_call w "set -o pipefail 2>/dev/null" with
      | SpawnFailed => generate w cfg st = Raise OSError
      | Returned _ =>
          if truthy (protoc_go_plugin cfg) && negb (truthy (go_home cfg))
          then generate w cfg st =
               Raise (SystemExit (dq +:+ "go_config.go_home" +:+ dq +:+ " is not configured"))
          else ∃ st' : generator,
                 generate w cfg st = Ok (rules_buf st', st') ∧
                 rules_buf st `prefix_of` rules_buf st' ∧
                 rule_headers (rules_buf st') =
                   rule_headers (rules_buf st) ++ map rule_header (names_of_pass cfg) ∧
                 all_rule_names st' = list_to_set (names_of_pass cfg) ∪ all_rule_names st ∧
                 pool_entries (rules_buf st') =
                   pool_entries (rules_buf st) ++ pools_of_pass w cfg
      end
  end.
Proof.
  unfold generate.
  destruct (generate_file_header_returns w st)
    as ([] & st1 & Hrun1 & Hpre1 & Hhd1 & Hnm1 & Hpl1).
  destruct (generate_common_rules_returns w st1)
    as ([] & st2 & Hrun2 & Hpre2 & Hhd2 & Hnm2 & Hpl2).
  rewrite bind_run, Hrun1. cbv beta iota. rewrite bind_run, Hrun2. cbv beta iota.
  rewrite bind_run.
  destruct (cc_debug_info_levels cfg !! debug_info_level cfg) as [options|] eqn:Hlevel;
    [|rewrite generate_cc_rules_key_error by exact Hlevel; reflexivity].
  destruct (subprocess_call w "set -o pipefail 2>/dev/null") as [status|] eqn:Hprobe;
    [|rewrite generate_cc_rules_spawn_failed, Hlevel by exact Hprobe; reflexivity].
  destruct (generate_cc_rules_returns w cfg options status Hlevel Hprobe st2)
    as ([] & st3 & Hrun3 & Hpre3 & Hhd3 & Hnm3 & Hpl3).
  rewrite Hrun3. cbv beta iota.
  destruct (truthy (protoc_go_plugin cfg) && negb (truthy (go_home cfg))) eqn:Hgo.
  { apply andb_true_iff in Hgo as [Hplugin Hhome]. apply negb_true_iff in Hhome.
    rewrite bind_run, generate_proto_rules_fatal by assumption. reflexivity. }
  assert (returns
            (["proto"; "protojava"; "protopython"; "protodescriptors"] ++
             (if truthy (protoc_go_plugin cfg) then ["protogo"] else []) ++
             ["resource_index"; "resource"] ++
             ["javac"; "javaresource"; "javajar"; "javatest"; "fatjar"; "onejar";
              "javabinary"; "scalac"; "scalatest"] ++
             ["thrift"] ++
             ["pythonlibrary"; "pythonbinary"] ++
             (if truthy (go_home cfg) && truthy (go_config_go cfg)
              then ["gopackage"; "gocommand"; "gotest"] else []) ++
             ["shelltest"; "shelltestdata"] ++
             ["lex"; "yacc"] ++
             ["package"; "package_tar"; "package_zip"] ++
             ["scm"] ++ [])
            ([] ++ [] ++ [] ++ [] ++ [] ++
             (if truthy (go_home cfg) && truthy (go_config_go cfg)
              then [("pool golang_pool" +:+ nl +:+ "  depth = 1" +:+ nl) +:+ nl] else []) ++
             [] ++ [] ++ [] ++ [] ++ [])
            (generate_proto_rules w cfg ;;
             generate_resource_rules w ;;
             generate_java_scala_rules w cfg ;;
             generate_thrift_rules w cfg ;;
             generate_python_rules w ;;
             generate_go_rules w cfg ;;
             generate_shell_rules w ;;
             generate_lex_yacc_rules w ;;
             generate_package_rules w ;;
             generate_version_rules w cfg ;;
             get_rules_buf)) as Hrest.
  { rewrite (app_assoc ["proto"; "protojava"; "protopython"; "protodescriptors"]).
    eapply returns_bind; [apply generate_proto_rules_returns, Hgo|intros _].
    eapply returns_bind; [apply generate_resource_rules_returns|intros _].
    eapply returns_bind; [apply generate_java_scala_rules_returns|intros _].
    eapply returns_bind; [apply generate_thrift_rules_returns|intros _].
    eapply returns_bind; [apply generate_python_rules_returns|intros _].
    eapply returns_bind; [apply generate_go_rules_returns|intros _].
    eapply returns_bind; [apply generate_shell_rules_returns|intros _].
    eapply returns_bind; [apply generate_lex_yacc_rules_returns|intros _].
    eapply returns_bind; [apply generate_package_rules_returns|intros _].
    eapply returns_bind; [apply generate_version_rules_returns|intros _].
    apply returns_pure. intros s. eexists. reflexivity. }
  destruct (Hrest st3) as (rules & st4 & Hrun4 & Hpre4 & Hhd4 & Hnm4 & Hpl4).
  exists st4.
  assert (rules = rules_buf st4) as ->.
  { revert Hrun4. rewrite !bind_run.
    repeat match goal with
           | |- context [match ?g ?s with Ok _ => _ | Raise _ => _ end] =>
               destruct (g s) as [[[] ?]|?]; [rewrite ?bind_run|discriminate]
           end.
    unfold get_rules_buf. intros [= <- <-]. reflexivity. }
  split; [exact Hrun4|].
  split; [etrans; [exact Hpre1|]; etrans; [exact Hpre2|]; etrans; eassumption|].
  split; [|split].
  - rewrite Hhd4, Hhd3, Hhd2, Hhd1. unfold names_of_pass.
    rewrite !map_app, <- !app_assoc. cbn [map app]. reflexivity.
  - rewrite Hnm4, Hnm3, Hnm2, Hnm1. unfold names_of_pass.
    apply set_eq. intros x.
    rewrite !elem_of_union, !elem_of_list_to_set, !elem_of_app, !elem_of_nil. tauto.
  - rewrite Hpl4, Hpl3, Hpl2, Hpl1. unfold pools_of_pass.
    cbn [app]. rewrite !app_nil_r, <- !app_assoc. reflexivity.
Qed.

(** ** The outcome of a pass *)


Lemma rule_header_inj (n n' : string) : rule_header n = rule_header n' → n = n'.
Proof.
  unfold rule_header. intros H%append_nl_inj.
  exact (String.app_inj "rule " n n' H).
Qed.

Lemma generate_headers (w : world) (cfg : config)
    (rules : list string) (st : generator) :
  generate w cfg init = Ok (rules, st) →
  rule_headers rules = map rule_header (names_of_pass cfg).
Proof.
  intros Hgen. pose proof (generate_run w cfg init) as Hrun.
  destruct (cc_debug_info_levels cfg !! debug_info_level cfg); [|congruence].
  destruct (subprocess_call w "set -o pipefail 2>/dev/null"); [|congruence].
  destruct (truthy (protoc_go_plugin cfg) && negb (truthy (go_home cfg))); [congruence|].
  destruct Hrun as (st' & Hrun & _ & Hheaders & _).
  rewrite Hgen in Hrun. injection Hrun as -> ->. exact Hheaders.
Qed.

(** X2.  The rules of a pass are opened in one fixed order, that of the
    calls in [generate]; only [protogo] and the three Go rules depend on
    the configuration. *)
Theorem generate_rule_order (w : world) (cfg : config)
    (rules : list string) (st : generator) :
  generate w cfg init = Ok (rules, st) →
  rule_headers rules = map rule_header (names_of_pass cfg) ∧
  (∀ name, rule_header name ∈ rules ↔ name ∈ names_of_pass cfg).
Proof.
  intros Hgen. pose proof (generate_headers w cfg rules st Hgen) as Hheaders.
  split; [exact Hheaders|]. intros name. split.
  - intros Hin.
    assert (rule_header name ∈ rule_headers rules) as Hname.
    { apply list_elem_of_In, filter_In. split; [apply list_elem_of_In, Hin|reflexivity]. }
    rewrite Hheaders in Hname.
    change (map rule_header (names_of_pass cfg)) with (rule_header <$> names_of_pass cfg)
      in Hname.
    apply list_elem_of_fmap in Hname as (n & Hn%rule_header_inj & Hin'). subst n. exact Hin'.
  - intros Hin. apply (list_elem_of_fmap_2 rule_header) in Hin.
    change (rule_header <$> names_of_pass cfg) with (map rule_header (names_of_pass cfg))
      in Hin.
    rewrite <- Hheaders in Hin. apply list_elem_of_In, filter_In in Hin as [Hin _].
    apply list_elem_of_In, Hin.
Qed.

Lemma names_of_pass_NoDup (cfg : config) : NoDup (names_of_pass cfg).
Proof.
  unfold names_of_pass.
  destruct (truthy (protoc_go_plugin cfg)),
           (truthy (go_home cfg) && truthy (go_config_go cfg));
    apply (bool_decide_unpack _); vm_compute; exact I.
Qed.

(** X3.  No rule name is declared twice in a pass: the rule headers of the
    buffer are pairwise different, and [get_all_rule_names] returns the
    names of these headers, each once. *)
Theorem generate_declares_each_rule_once (w : world) (cfg : config)
    (rules : list string) (st : generator) :
  generate w cfg init = Ok (rules, st) →
  NoDup (rule_headers rules) ∧
  get_all_rule_names st ≡ₚ names_of_pass cfg ∧
  length (get_all_rule_names st) = length (rule_headers rules).
Proof.
  intros Hgen. pose proof (generate_run w cfg init) as Hrun.
  destruct (cc_debug_info_levels cfg !! debug_info_level cfg); [|congruence].
  destruct (subprocess_call w "set -o pipefail 2>/dev/null"); [|congruence].
  destruct (truthy (protoc_go_plugin cfg) && negb (truthy (go_home cfg))); [congruence|].
  destruct Hrun as (st' & Hrun & _ & Hheaders & Hnames & _).
  rewrite Hgen in Hrun. injection Hrun as -> ->.
  cbn [init rules_buf all_rule_names rule_headers List.filter app] in Hheaders, Hnames.
  rewrite (right_id_L ∅ (∪)) in Hnames.
  assert (get_all_rule_names st' ≡ₚ names_of_pass cfg) as Hperm.
  { unfold get_all_rule_names. rewrite Hnames.
    apply elements_list_to_set, names_of_pass_NoDup. }
  split; [|split].
  - rewrite Hheaders. apply NoDup_fmap_2; [|apply names_of_pass_NoDup].
    intros n n'. apply rule_header_inj.
  - exact Hperm.
  - rewrite Hheaders, length_map. apply Permutation_length, Hperm.
Qed.

(** X4.  The registry only grows: a pass started on a generator that
    already holds entries and names keeps all of them, the old entries as a
    prefix of the buffer it returns. *)
Theorem generate_only_appends (w : world) (cfg : config)
    (st st' : generator) (rules : list string) :
  generate w cfg st = Ok (rules, st') →
  rules = rules_buf st' ∧
  rules_buf st `prefix_of` rules ∧
  all_rule_names st ⊆ all_rule_names st'.
Proof.
  intros Hgen. pose proof (generate_run w cfg st) as Hrun.
  destruct (cc_debug_info_levels cfg !! debug_info_level cfg); [|congruence].
  destruct (subprocess_call w "set -o pipefail 2>/dev/null"); [|congruence].
  destruct (truthy (protoc_go_plugin cfg) && negb (truthy (go_home cfg))); [congruence|].
  destruct Hrun as (st'' & Hrun & Hprefix & _ & Hnames & _).
  rewrite Hgen in Hrun. injection Hrun as -> ->.
  split; [reflexivity|]. split; [exact Hprefix|].
  rewrite Hnames. apply union_subseteq_r.
Qed.

(** ** The awk filter on arbitrary streams *)

Lemma awk_fold (lines : list string) (s : awk_state) :
  stop s = false →
  fold_left awk_record lines s =
  {| stop := existsb is_sentinel lines;
     to_stdout := to_stdout s ++ List.filter dots_field (before_sentinel lines);
     to_stderr := to_stderr s ++
                  List.filter (λ l, negb (dots_field l)) (before_sentinel lines) |}.
Proof.
  revert s. induction lines as [|l lines IH]; intros s Hs.
  - cbn. rewrite !app_nil_r. destruct s; cbn in *; subst; reflexivity.
  - cbn [fold_left before_sentinel existsb]. destruct (is_sentinel l) eqn:Hl.
    + rewrite awk_stopped by (unfold awk_record; rewrite Hl; reflexivity).
      unfold awk_record. rewrite Hl. cbn. rewrite !app_nil_r. reflexivity.
    + rewrite IH by (unfold awk_record; rewrite Hl, Hs; cbn; destruct (dots_field l);
                     reflexivity).
      unfold awk_record. rewrite Hl, Hs. cbn [negb orb List.filter].
      destruct (dots_field l); cbn [negb stop to_stdout to_stderr];
        rewrite <- ?app_assoc; reflexivity.
Qed.

Lemma filter_partition_perm (f : string → bool) (l : list string) :
  List.filter f l ++ List.filter (λ x, negb (f x)) l ≡ₚ l.
Proof.
  induction l as [|x l IH]; [reflexivity|]. cbn [List.filter].
  destruct (f x); cbn [negb app].
  - constructor. exact IH.
  - rewrite <- Permutation_middle. constructor. exact IH.
Qed.

Lemma awk_run_closed_form (lines : list string) :
  awk_run lines =
  {| stop := existsb is_sentinel lines;
     to_stdout := List.filter dots_field (before_sentinel lines);
     to_stderr := List.filter (λ l, negb (dots_field l)) (before_sentinel lines) |}.
Proof.
  unfold awk_run.
  exact (awk_fold lines {| stop := false; to_stdout := []; to_stderr := [] |} eq_refl).
Qed.

(** X5.  On any stream the awk program stops at the first line that begins
    with the sentinel, or never when there is none.  The lines before that
    point are split between the two outputs, each line going to exactly one
    of them, in order: nothing is lost or repeated before the sentinel, and
    nothing from the sentinel on is printed anywhere. *)
Theorem awk_run_splits_the_stream (lines : list string) :
  to_stdout (awk_run lines) = List.filter dots_field (before_sentinel lines) ∧
  to_stderr (awk_run lines) =
    List.filter (λ l, negb (dots_field l)) (before_sentinel lines) ∧
  stop (awk_run lines) = existsb is_sentinel lines ∧
  to_stdout (awk_run lines) ++ to_stderr (awk_run lines) ≡ₚ before_sentinel lines.
Proof.
  rewrite awk_run_closed_form. cbn [stop to_stdout to_stderr].
  repeat split. apply filter_partition_perm.
Qed.

Lemma first_field_skip_blanks (s : string) :
  first_field s = first_field (skip_blanks s).
Proof.
  induction s as [|c s IH]; [reflexivity|].
  cbn [first_field skip_blanks]. destruct (is_blank c) eqn:Hc; [exact IH|].
  cbn [first_field]. rewrite Hc. reflexivity.
Qed.

Lemma dots_field_starts_with_dot (line : string) :
  dots_field line = true → startswith "." (skip_blanks line) = true.
Proof.
  unfold dots_field. rewrite first_field_skip_blanks.
  assert (skip_blanks line = "" ∨
          ∃ c r, skip_blanks line = String c r ∧ is_blank c = false) as [->|(c & r & -> & Hc)].
  { induction line as [|c r IH]; [left; reflexivity|].
    cbn [skip_blanks]. destruct (is_blank c) eqn:Hc; [exact IH|].
    right. exists c, r. split; [reflexivity|exact Hc]. }
  - discriminate.
  - cbn [first_field]. rewrite Hc. cbn [truthy string_truthy only_dots andb startswith].
    intros H. apply andb_true_iff in H as [H _]. rewrite Ascii.eqb_sym, H. reflexivity.
Qed.

Lemma dots_field_not_sentinel (line : string) :
  dots_field line = true → is_sentinel line = false.
Proof.
  intros H. destruct line as [|c r]; [reflexivity|].
  unfold is_sentinel, sentinel. cbn [startswith].
  destruct (Ascii.eqb "M" c) eqn:Hc; [|reflexivity].
  apply Ascii.eqb_eq in Hc. subst c. discriminate H.
Qed.

(** X6.  Every line written to the side file is a line of the input that
    comes before the sentinel, does not begin with the sentinel text and,
    once its leading blanks are dropped, starts with a dot. *)
Theorem captured_lines_start_with_dot (lines : list string) (l : string) :
  l ∈ to_stdout (awk_run lines) →
  l ∈ before_sentinel lines ∧
  is_sentinel l = false ∧
  startswith "." (skip_blanks l) = true.
Proof.
  rewrite awk_run_closed_form. cbn [to_stdout].
  intros Hl. apply list_elem_of_In, filter_In in Hl as [Hin Hdots].
  split; [apply list_elem_of_In, Hin|].
  split; [apply dots_field_not_sentinel, Hdots|apply dots_field_starts_with_dot, Hdots].
Qed.

Lemma before_sentinel_id (lines : list string) :
  Forall (λ l, is_sentinel l = false) lines → before_sentinel lines = lines.
Proof.
  induction 1 as [|l lines Hl _ IH]; [reflexivity|].
  cbn [before_sentinel]. rewrite Hl, IH. reflexivity.
Qed.

Lemma filter_all (f : string → bool) (l : list string) :
  Forall (λ x, f x = true) l →
  List.filter f l = l ∧ List.filter (λ x, negb (f x)) l = [].
Proof.
  induction 1 as [|x l Hx _ [IH1 IH2]]; [split; reflexivity|].
  cbn [List.filter]. rewrite Hx, IH1, IH2. split; reflexivity.
Qed.

(** X7.  The filter is idempotent on the side file: run on its own
    standard output it returns the same lines and sends nothing to the
    standard error. *)
Theorem awk_run_idempotent (lines : list string) :
  to_stdout (awk_run (to_stdout (awk_run lines))) = to_stdout (awk_run lines) ∧
  to_stderr (awk_run (to_stdout (awk_run lines))) = [].
Proof.
  assert (Forall (λ l, dots_field l = true) (to_stdout (awk_run lines))) as Hdots.
  { rewrite awk_run_closed_form. cbn [to_stdout].
    apply List.Forall_forall. intros l Hl. apply filter_In in Hl. apply Hl. }
  rewrite (awk_run_closed_form (to_stdout (awk_run lines))). cbn [to_stdout to_stderr].
  rewrite before_sentinel_id.
  - apply filter_all, Hdots.
  - eapply Forall_impl; [exact Hdots|]. intros l. apply dots_field_not_sentinel.
Qed.

(** ** Rule attributes *)

Lemma rule_block_given w name command description depfile gen pool restat
    rspfile rspfile_content deps :
  rule_block w name command description depfile gen pool restat
    rspfile rspfile_content deps =
  rule_block w name command (given description) (given depfile) gen (given pool) restat
    (given rspfile) (given rspfile_content) (given deps).
Proof.
  unfold rule_block, given.
  destruct (truthy description) eqn:Hd, (truthy depfile) eqn:Hf, (truthy pool) eqn:Hp,
    (truthy rspfile) eqn:Hr, (truthy rspfile_content) eqn:Hc, (truthy deps) eqn:Hs;
    rewrite ?Hd, ?Hf, ?Hp, ?Hr, ?Hc, ?Hs; reflexivity.
Qed.

(** X8.  For each optional attribute of a rule an empty string is the same
    as no value: the call has the same result and the block has no line for
    that attribute.  In particular a rule declared with [pool=''] is in no
    pool. *)
Theorem generate_rule_ignores_empty_attributes w name command description depfile gen
    pool restat rspfile rspfile_content deps (st : generator) :
  generate_rule w name command description depfile gen pool restat
    rspfile rspfile_content deps st =
  generate_rule w name command (given description) (given depfile) gen (given pool)
    restat (given rspfile) (given rspfile_content) (given deps) st ∧
  (truthy pool = false →
   Forall (λ e, is_pool_assignment e = false)
     (rule_block w name command description depfile gen pool restat
        rspfile rspfile_content deps)).
Proof.
  split.
  - rewrite !generate_rule_run. rewrite <- rule_block_given. reflexivity.
  - intros Hpool.
    eapply Forall_impl; [apply (rule_block_pool_free ""), Hpool|].
    intros e [He _]. exact He.
Qed.

(** ** Go rules by mode *)

Lemma generate_go_rules_entries (w : world) (cfg : config) (st : generator)
    (prefix out_relative : string) :
  truthy (go_home cfg) = true →
  truthy (go_config_go cfg) = true →
  (if go_module_enabled cfg
   then if truthy (go_module_relpath cfg)
        then ("cd " +:+ default "" (go_module_relpath cfg) +:+ " && " +:+
              os_path_relpath w (default "" (go_config_go cfg))
                (default "" (go_module_relpath cfg)),
              os_path_join (os_path_relpath w "./" (default "" (go_module_relpath cfg))) "")
        else (default "" (go_config_go cfg), "")
   else ("GOPATH=" +:+ os_path_normpath w (os_path_abspath w (default "" (go_home cfg))) +:+
         " " +:+ default "" (go_config_go cfg), "")) = (prefix, out_relative) →
  generate_go_rules w cfg st =
  Ok (tt, {| rules_buf := rules_buf st ++ go_entries w prefix out_relative;
             all_rule_names :=
               {[ "gotest" ]} ∪ ({[ "gocommand" ]} ∪
               ({[ "gopackage" ]} ∪ all_rule_names st)) |}).
Proof.
  intros Hhome Hgo Hmode. unfold generate_go_rules. rewrite Hhome, Hgo.
  cbv zeta. cbn [andb when]. rewrite Hmode. run_generator.
  unfold go_entries. rewrite <- !app_assoc. reflexivity.
Qed.

(** X9.  How the three Go commands start depends on the mode.  Outside
    module mode the Go tool runs with [GOPATH] set to the normalised
    absolute Go home.  In module mode [GOPATH] is never set: without a
    module-relative path the Go tool is called as configured; with one, the
    command first changes to that directory, calls the Go tool by its path
    relative to it, and the output of [gocommand] and [gotest] is written
    relative to it as well. *)
Theorem generate_go_rules_by_mode (w : world) (cfg : config) (st : generator)
    (home go : string) :
  go_home cfg = Some home → truthy home = true →
  go_config_go cfg = Some go → truthy go = true →
  let run prefix out_relative :=
    generate_go_rules w cfg st =
    Ok (tt, {| rules_buf := rules_buf st ++ go_entries w prefix out_relative;
               all_rule_names :=
                 {[ "gotest" ]} ∪ ({[ "gocommand" ]} ∪
                 ({[ "gopackage" ]} ∪ all_rule_names st)) |}) in
  (go_module_enabled cfg = false →
   run ("GOPATH=" +:+ os_path_normpath w (os_path_abspath w home) +:+ " " +:+ go) "") ∧
  (go_module_enabled cfg = true → truthy (go_module_relpath cfg) = false →
   run go "") ∧
  (∀ relpath, go_module_enabled cfg = true →
     go_module_relpath cfg = Some relpath → truthy relpath = true →
     run ("cd " +:+ relpath +:+ " && " +:+ os_path_relpath w go relpath)
         (os_path_join (os_path_relpath w "./" relpath) "")).
Proof.
  intros Hhome Hh Hgo Hg run. subst run. cbv beta.
  assert (truthy (go_home cfg) = true) as Hth by (rewrite Hhome; exact Hh).
  assert (truthy (go_config_go cfg) = true) as Htg by (rewrite Hgo; exact Hg).
  split; [|split].
  - intros Hmode. apply generate_go_rules_entries; [assumption..|].
    rewrite Hmode, Hhome, Hgo. reflexivity.
  - intros Hmode Hrel. apply generate_go_rules_entries; [assumption..|].
    rewrite Hmode, Hrel, Hgo. reflexivity.
  - intros relpath Hmode Hrel Htr. apply generate_go_rules_entries; [assumption..|].
    rewrite Hmode, Hrel, Hgo. cbn [truthy option_truthy default]. rewrite Htr.
    reflexivity.
Qed.

(** ** Strings: append, join and replace *)

Lemma py_join_cons (sep x : string) (l : list string) :
  l ≠ [] → py_join sep (x :: l) = x +:+ sep +:+ py_join sep l.
Proof. destruct l; [congruence|reflexivity]. Qed.

Lemma py_join_app (sep : string) (l1 l2 : list string) :
  l1 ≠ [] → l2 ≠ [] →
  py_join sep (l1 ++ l2) = py_join sep l1 +:+ sep +:+ py_join sep l2.
Proof.
  intros H1 H2. induction l1 as [|x l1 IH]; [congruence|].
  destruct l1 as [|y l1].
  - cbn [app]. rewrite py_join_cons by exact H2. reflexivity.
  - change ((x :: y :: l1) ++ l2) with (x :: (y :: l1) ++ l2).
    rewrite py_join_cons by discriminate. rewrite IH by discriminate.
    rewrite (py_join_cons sep x (y :: l1)) by discriminate.
    rewrite !append_assoc. reflexivity.
Qed.

(** X10.  The import path options are built root by root: no root gives
    the empty string, one root gives a single token, and the option string
    of two non-empty lists put together is that of the first, a space, and
    that of the second; the roots keep their order.  The same holds for the
    include options of thrift. *)
Theorem import_path_options_compose (l1 l2 : list string) (inc : string) :
  protoc_import_path_option [] = "" ∧
  protoc_import_path_option [inc] = "-I=" +:+ inc ∧
  _incs_list_to_string [] = "" ∧
  _incs_list_to_string [inc] = "-I " +:+ inc ∧
  (l1 ≠ [] → l2 ≠ [] →
   protoc_import_path_option (l1 ++ l2) =
     protoc_import_path_option l1 +:+ " " +:+ protoc_import_path_option l2 ∧
   _incs_list_to_string (l1 ++ l2) =
     _incs_list_to_string l1 +:+ " " +:+ _incs_list_to_string l2).
Proof.
  repeat split; try reflexivity.
  - unfold protoc_import_path_option. rewrite map_app.
    apply py_join_app; destruct l1, l2; cbn; congruence.
  - unfold _incs_list_to_string. rewrite map_app.
    apply py_join_app; destruct l1, l2; cbn; congruence.
Qed.

Lemma replace_colon_cons (c : ascii) (s : string) :
  py_replace ":" "/" (String c s) =
  if Ascii.eqb ":" c then "/" +:+ py_replace ":" "/" s
  else String c (py_replace ":" "/" s).
Proof.
  unfold py_replace. cbn [replace_from startswith String.length Nat.sub].
  destruct (Ascii.eqb ":" c); reflexivity.
Qed.

Lemma contains_colon_cons (c : ascii) (s : string) :
  contains ":" (String c s) = Ascii.eqb ":" c || contains ":" s.
Proof.
  cbn [contains startswith]. destruct (Ascii.eqb ":" c); reflexivity.
Qed.

Lemma replace_colon_app (a b : string) :
  py_replace ":" "/" (a +:+ b) = py_replace ":" "/" a +:+ py_replace ":" "/" b.
Proof.
  induction a as [|c a IH]; [reflexivity|].
  change (String c a +:+ b) with (String c (a +:+ b)).
  rewrite !replace_colon_cons, IH. destruct (Ascii.eqb ":" c); reflexivity.
Qed.

Lemma replace_colon_id (a : string) :
  contains ":" a = false → py_replace ":" "/" a = a.
Proof.
  induction a as [|c a IH]; [reflexivity|].
  rewrite contains_colon_cons, replace_colon_cons.
  intros [Hc Ha]%orb_false_iff. rewrite Hc, IH by exact Ha. reflexivity.
Qed.

Lemma replace_colon_clean (s : string) : contains ":" (py_replace ":" "/" s) = false.
Proof.
  induction s as [|c s IH]; [reflexivity|].
  rewrite replace_colon_cons. destruct (Ascii.eqb ":" c) eqn:Hc.
  - change ("/" +:+ py_replace ":" "/" s) with (String "/" (py_replace ":" "/" s)).
    rewrite contains_colon_cons, IH. reflexivity.
  - rewrite contains_colon_cons, Hc, IH. reflexivity.
Qed.

Lemma generate_thrift_rules_run (w : world) (cfg : config) (st : generator) :
  generate_thrift_rules w cfg st =
  Ok (tt, {| rules_buf :=
               rules_buf st ++
               thrift_entries w cfg
                 (if startswith "//" (thrift_config_thrift cfg)
                  then py_replace ":" "/"
                         (py_replace "//" (build_dir w +:+ "/") (thrift_config_thrift cfg))
                  else thrift_config_thrift cfg);
             all_rule_names := {[ "thrift" ]} ∪ all_rule_names st |}).
Proof. unfold generate_thrift_rules. cbv zeta. apply generate_rule_run. Qed.

Lemma startswith_keeps_colon (p s : string) :
  startswith p s = true → contains ":" p = true → contains ":" s = true.
Proof.
  revert s. induction p as [|a p IH]; intros [|b s]; try discriminate.
  change (startswith (String a p) (String b s))
    with (if Ascii.eqb a b then startswith p s else false).
  destruct (Ascii.eqb a b) eqn:Hab; [|discriminate].
  apply Ascii.eqb_eq in Hab as <-.
  rewrite !contains_colon_cons. intros Hp [Ha|Hc]%orb_true_iff.
  - rewrite Ha. reflexivity.
  - rewrite (IH s Hp Hc). apply orb_true_r.
Qed.

(** X11.  A thrift compiler given by a path is used as it is.  One given
    by an in-tree label [//dir:name] is rewritten by two replacements that
    act on the whole string: [//] becomes the build directory and a slash,
    and then every colon becomes a slash, the colons of the build directory
    included.  The path in the command is therefore the build directory
    with its colons replaced, a slash, and the label with its colons
    replaced; it has no colon.  It starts with [<build_dir>/] exactly when
    the build directory has no colon. *)
Theorem thrift_label_is_rewritten (w : world) (cfg : config) (st : generator) :
  (startswith "//" (thrift_config_thrift cfg) = false →
   generate_thrift_rules w cfg st =
   Ok (tt, {| rules_buf := rules_buf st ++ thrift_entries w cfg (thrift_config_thrift cfg);
              all_rule_names := {[ "thrift" ]} ∪ all_rule_names st |})) ∧
  (∀ label : string,
     thrift_config_thrift cfg = "//" +:+ label →
     let path :=
       py_replace ":" "/" (build_dir w) +:+ "/" +:+
       py_replace ":" "/" (py_replace "//" (build_dir w +:+ "/") label) in
     generate_thrift_rules w cfg st =
     Ok (tt, {| rules_buf := rules_buf st ++ thrift_entries w cfg path;
                all_rule_names := {[ "thrift" ]} ∪ all_rule_names st |}) ∧
     startswith (py_replace ":" "/" (build_dir w) +:+ "/") path = true ∧
     contains ":" path = false ∧
     startswith (build_dir w +:+ "/") path = negb (contains ":" (build_dir w))).
Proof.
  split.
  - intros Hpath. rewrite generate_thrift_rules_run, Hpath. reflexivity.
  - intros label Hlabel path.
    assert (py_replace ":" "/"
              ((build_dir w +:+ "/") +:+ py_replace "//" (build_dir w +:+ "/") label) =
            path) as Hpath.
    { rewrite replace_colon_app, replace_colon_app.
      change (py_replace ":" "/" "/") with "/". apply append_assoc. }
    assert (contains ":" path = false) as Hclean
      by (rewrite <- Hpath; apply replace_colon_clean).
    split; [|split; [|split]].
    + rewrite generate_thrift_rules_run, Hlabel. rewrite <- Hpath. reflexivity.
    + unfold path. rewrite <- append_assoc. apply startswith_app.
    + exact Hclean.
    + destruct (contains ":" (build_dir w)) eqn:Hdir; cbn [negb].
      * destruct (startswith (build_dir w +:+ "/") path) eqn:Hstart; [|reflexivity].
        assert (contains ":" (build_dir w +:+ "/") = true) as Hcolon.
        { apply (startswith_keeps_colon (build_dir w) _ (startswith_app _ _) Hdir). }
        rewrite (startswith_keeps_colon _ _ Hstart Hcolon) in Hclean. discriminate.
      * unfold path. rewrite (replace_colon_id (build_dir w)) by exact Hdir.
        rewrite <- append_assoc. apply startswith_app.
Qed.

(** ** Builtin tools *)

(** X12.  Every builtin-tool command has one shape: the [PYTHONPATH]
    setting, the prefix when there is one, the interpreter running
    [blade.builtin_tools] with the name of the builder, and then the
    suffix, or [${out} ${in}] when the suffix is empty. *)
Theorem builtin_command_shape (w : world) (builder prefix suffix : string) :
  _builtin_command w builder prefix suffix =
  ("PYTHONPATH=" +:+ blade_path w +:+ ":$$PYTHONPATH") +:+ " " +:+
  (if truthy prefix then prefix +:+ " " else "") +:+
  (sys_executable w +:+ " -m blade.builtin_tools " +:+ builder) +:+ " " +:+
  (if truthy suffix then suffix else "${out} ${in}").
Proof.
  unfold _builtin_command.
  destruct (truthy prefix), (truthy suffix); cbn [app py_join];
    rewrite ?append_assoc; reflexivity.
Qed.

(** ** Protocol buffer rules without Go *)

(** X13.  Without a Go protobuf plugin [generate_proto_rules] never fails,
    whatever the Go settings are, and declares exactly the four rules
    [proto], [protojava], [protopython] and [protodescriptors].  The Java
    rule falls back to the common compiler when no Java compiler is
    configured, and to the common import roots when no Java roots are. *)
Theorem generate_proto_rules_without_go (w : world) (cfg : config) (st : generator) :
  truthy (protoc_go_plugin cfg) = false →
  ∃ java_protoc java_incs : string,
    generate_proto_rules w cfg st =
    Ok (tt, {| rules_buf := rules_buf st ++ proto_entries w cfg java_protoc java_incs;
               all_rule_names :=
                 {[ "protodescriptors" ]} ∪ ({[ "protopython" ]} ∪
                 ({[ "protojava" ]} ∪ ({[ "proto" ]} ∪ all_rule_names st))) |}) ∧
    (truthy (protoc_java cfg) = false → java_protoc = protoc cfg) ∧
    (∀ p, protoc_java cfg = Some p → truthy p = true → java_protoc = p) ∧
    (protobuf_java_incs cfg = [] →
     java_incs = protoc_import_path_option (protobuf_incs cfg)) ∧
    (protobuf_java_incs cfg ≠ [] →
     java_incs = protoc_import_path_option (protobuf_java_incs cfg)).
Proof.
  intros Hplugin.
  exists (if truthy (protoc_java cfg) then default "" (protoc_java cfg) else protoc cfg),
         (if truthy (protobuf_java_incs cfg)
          then protoc_import_path_option (protobuf_java_incs cfg)
          else protoc_import_path_option (protobuf_incs cfg)).
  split; [|split; [|split; [|split]]].
  - unfold generate_proto_rules. cbv zeta. run_generator.
    rewrite Hplugin. cbn [when]. run_generator.
    unfold proto_entries. rewrite <- !app_assoc. reflexivity.
  - intros ->. reflexivity.
  - intros p -> Hp. cbn [truthy option_truthy default]. rewrite Hp. reflexivity.
  - intros ->. reflexivity.
  - intros Hincs. destruct (protobuf_java_incs cfg); [congruence|reflexivity].
Qed.

(** ** Version stamping *)

Lemma hoare_any {A} (P : generator → Prop) (m : M A) : hoare P m (λ _ _, True).
Proof. intros st _. destruct (m st) as [[a st']|e]; exact I. Qed.

Lemma generate_version_rules_tail (w : world) (cfg : config) :
  hoare (λ _, True) (generate_version_rules w cfg)
    (λ _ st, ∃ body, rules_buf st = body ++ [scm_statement w cfg; scm_object_statement w]).
Proof.
  intros st _. unfold generate_version_rules, scm_statement, scm_object_statement.
  destruct (load_scm w (build_dir w)) as [revision url]. cbv zeta. run_generator.
  eexists. rewrite <- app_assoc. reflexivity.
Qed.

Lemma generate_tail (w : world) (cfg : config) :
  hoare (λ _, True) (generate w cfg)
    (λ rules _, ∃ body, rules = body ++ [scm_statement w cfg; scm_object_statement w]).
Proof.
  unfold generate.
  do 12 (apply (hoare_bind _ (λ _ _, True)); [apply hoare_any|intros _]).
  apply (hoare_bind _ (λ _ st, ∃ body, rules_buf st =
                                 body ++ [scm_statement w cfg; scm_object_statement w]));
    [apply generate_version_rules_tail|intros _].
  intros st H. exact H.
Qed.

(** X14.  A pass ends with the two build statements of the version stamp:
    one runs the rule [scm], the other compiles its output with the rule
    [cxx].  Both rules are declared in the part of the buffer that comes
    before these statements. *)
Theorem version_statements_use_declared_rules (w : world) (cfg : config)
    (rules : list string) (st : generator) :
  generate w cfg init = Ok (rules, st) →
  ∃ body : list string,
    rules = body ++ [scm_statement w cfg; scm_object_statement w] ∧
    rule_header "scm" ∈ body ∧
    rule_header "cxx" ∈ body.
Proof.
  intros Hgen. pose proof (generate_tail w cfg init I) as Htail.
  rewrite Hgen in Htail. destruct Htail as [body ->]. exists body.
  split; [reflexivity|].
  pose proof (generate_headers w cfg _ st Hgen) as Horder.
  rewrite rule_headers_app in Horder.
  assert (rule_headers [scm_statement w cfg; scm_object_statement w] = []) as Hnone
    by reflexivity.
  rewrite Hnone, app_nil_r in Horder.
  assert (∀ n, n ∈ names_of_pass cfg → rule_header n ∈ body) as Hin.
  { intros n Hn. apply (list_elem_of_fmap_2 rule_header) in Hn.
    change (rule_header <$> names_of_pass cfg) with (map rule_header (names_of_pass cfg)) in Hn.
    rewrite <- Horder in Hn. apply list_elem_of_In, filter_In in Hn as [Hn _].
    apply list_elem_of_In, Hn. }
  split; apply Hin; unfold names_of_pass; rewrite !elem_of_app, !elem_of_cons; tauto.
Qed.

(** ** Compiler flags *)

Lemma if_singleton_elem (c : bool) (x y : string) :
  x ∈ (if c then [y] else []) ↔ c = true ∧ x = y.
Proof.
  destruct c; [rewrite list_elem_of_singleton|rewrite elem_of_nil]; intuition discriminate.
Qed.

(** X15.  When the debug level is known, [_get_cc_flags] returns the
    preprocessor flags as they come out of the filter of the tool chain and
    the link flags unfiltered.  The link flags come from the options alone
    ([-m], [-pg], [--coverage]).  The list handed to the filter always has
    [-pipe], [-fno-omit-frame-pointer], the debug options of the level and
    the four feature macros; it has [-DNDEBUG] for the release profile and
    [-fstack-protector] for the debug profile, and for no other profile
    unless the debug options bring them. *)
Theorem get_cc_flags_spec (w : world) (cfg : config) (st : generator)
    (options : list string) :
  cc_debug_info_levels cfg !! debug_info_level cfg = Some options →
  ∃ unfiltered : list string,
    _get_cc_flags w cfg st =
    Ok ((filter_cc_flags w unfiltered "",
         (if truthy (options_m cfg) then ["-m" +:+ py_str (options_m cfg)] else []) ++
         (if options_gprof cfg then ["-pg"] else []) ++
         (if options_coverage cfg then ["--coverage"] else [])), st) ∧
    (∀ f, f ∈ ["-pipe"; "-fno-omit-frame-pointer"; "-D_FILE_OFFSET_BITS=64";
               "-D__STDC_CONSTANT_MACROS"; "-D__STDC_FORMAT_MACROS";
               "-D__STDC_LIMIT_MACROS"] ++ options → f ∈ unfiltered) ∧
    ("-DNDEBUG" ∈ unfiltered ↔
       options_profile cfg = "release" ∨ "-DNDEBUG" ∈ options) ∧
    ("-fstack-protector" ∈ unfiltered ↔
       options_profile cfg = "debug" ∨ "-fstack-protector" ∈ options).
Proof.
  intros Hlevel.
  exists ((if truthy (options_m cfg) then ["-m" +:+ py_str (options_m cfg)] else []) ++
          ["-pipe"; "-fno-omit-frame-pointer"] ++ options ++
          (if String.eqb (options_profile cfg) "debug" then ["-fstack-protector"]
           else if String.eqb (options_profile cfg) "release" then ["-DNDEBUG"] else []) ++
          ["-D_FILE_OFFSET_BITS=64"; "-D__STDC_CONSTANT_MACROS";
           "-D__STDC_FORMAT_MACROS"; "-D__STDC_LIMIT_MACROS"] ++
          (if options_gprof cfg then ["-pg"] else []) ++
          (if options_coverage cfg then ["--coverage"] else [])).
  split; [|split; [|split]].
  - unfold _get_cc_flags, py_getitem. rewrite Hlevel.
    destruct (truthy (options_m cfg)), (options_gprof cfg), (options_coverage cfg),
      (String.eqb (options_profile cfg) "debug"),
      (String.eqb (options_profile cfg) "release");
      rewrite bind_run; cbv beta iota zeta; rewrite ?ret_run;
      rewrite <- ?app_assoc; reflexivity.
  - intros f. rewrite !elem_of_app, !elem_of_cons, !elem_of_nil. tauto.
  - rewrite !elem_of_app, !if_singleton_elem, !elem_of_cons, !elem_of_nil.
    destruct (String.eqb_spec (options_profile cfg) "debug") as [Hd|Hd];
      destruct (String.eqb_spec (options_profile cfg) "release") as [Hr|Hr];
      rewrite ?if_singleton_elem, ?elem_of_cons, ?elem_of_nil;
      intuition (try discriminate; try congruence).
  - rewrite !elem_of_app, !if_singleton_elem, !elem_of_cons, !elem_of_nil.
    destruct (String.eqb_spec (options_profile cfg) "debug") as [Hd|Hd];
      destruct (String.eqb_spec (options_profile cfg) "release") as [Hr|Hr];
      rewrite ?if_singleton_elem, ?elem_of_cons, ?elem_of_nil;
      intuition (try discriminate; try congruence).
Qed.

(** ** Pools of a pass *)

Lemma pools_of_pass_NoDup (w : world) (cfg : config) : NoDup (pools_of_pass w cfg).
Proof.
  unfold pools_of_pass.
  destruct (truthy (link_jobs cfg)), (truthy (go_home cfg) && truthy (go_config_go cfg));
    cbn [app]; repeat constructor;
    rewrite ?elem_of_cons, ?elem_of_nil; intuition discriminate.
Qed.

(** X16.  The pool declarations of a pass are, in this order,
    [heavy_pool], then [link_pool] when a link-jobs limit is configured,
    then [golang_pool] when the Go home and the Go executable are; no pool
    is declared twice and no other entry of the buffer declares a pool. *)
Theorem generate_declares_each_pool_once (w : world) (cfg : config)
    (rules : list string) (st : generator) :
  generate w cfg init = Ok (rules, st) →
  pool_entries rules = pools_of_pass w cfg ∧
  NoDup (pool_entries rules).
Proof.
  intros Hgen. pose proof (generate_run w cfg init) as Hrun.
  destruct (cc_debug_info_levels cfg !! debug_info_level cfg); [|congruence].
  destruct (subprocess_call w "set -o pipefail 2>/dev/null"); [|congruence].
  destruct (truthy (protoc_go_plugin cfg) && negb (truthy (go_home cfg))); [congruence|].
  destruct Hrun as (st' & Hrun & _ & _ & _ & Hpools).
  rewrite Hgen in Hrun. injection Hrun as -> ->.
  cbn [init rules_buf pool_entries List.filter app] in Hpools.
  change (List.filter is_pool_entry (rules_buf st')) with (pool_entries (rules_buf st'))
    in Hpools.
  rewrite Hpools. split; [reflexivity|apply pools_of_pass_NoDup].
Qed.

(** ** Java versions *)

(** X17.  The [-source] and [-target] flags of [javac] fall back to the
    Java version only when the key is missing from the configuration: a
    missing [source_version] and [target_version] give both flags with the
    version, while keys that are present and empty give no flag at all,
    whatever the version is. *)
Theorem javac_version_flags (w : world) (cfg : config) (st : generator) :
  ∃ versions : list string,
    generate_javac_rules w cfg st =
    Ok (tt, {| rules_buf := rules_buf st ++ javac_entries w cfg versions;
               all_rule_names := {[ "javac" ]} ∪ all_rule_names st |}) ∧
    versions =
      (if truthy (default (java_version cfg) (java_source_version cfg))
       then ["-source " +:+ default (java_version cfg) (java_source_version cfg)]
       else []) ++
      (if truthy (default (java_version cfg) (java_target_version cfg))
       then ["-target " +:+ default (java_version cfg) (java_target_version cfg)]
       else []) ∧
    (java_source_version cfg = None → java_target_version cfg = None →
     truthy (java_version cfg) = true →
     versions = ["-source " +:+ java_version cfg; "-target " +:+ java_version cfg]) ∧
    (java_source_version cfg = Some "" → java_target_version cfg = Some "" →
     versions = []).
Proof.
  eexists. split; [|split; [reflexivity|split]].
  - unfold generate_javac_rules. cbv zeta. run_generator.
    unfold javac_entries. rewrite <- !app_assoc.
    destruct (truthy (default (java_version cfg) (java_source_version cfg))),
      (truthy (default (java_version cfg) (java_target_version cfg)));
      reflexivity.
  - intros -> -> Hv. cbn [default]. rewrite Hv. reflexivity.
  - intros -> ->. reflexivity.
Qed.

(** ** The further properties on the concrete pass *)

Lemma sample_pass_from (st : generator) :
  ∃ (rules : list string) (st' : generator),
    generate sample_world sample_config st = Ok (rules, st').
Proof.
  pose proof (generate_run sample_world sample_config st) as Hrun.
  assert (cc_debug_info_levels sample_config !! debug_info_level sample_config =
          Some ["-g"]) as Hlevel by reflexivity.
  assert (subprocess_call sample_world "set -o pipefail 2>/dev/null" = Returned 0)
    as Hprobe by reflexivity.
  assert (truthy (protoc_go_plugin sample_config) && negb (truthy (go_home sample_config)) =
          false) as Hgo by reflexivity.
  rewrite Hlevel, Hprobe, Hgo in Hrun. destruct Hrun as (st' & Hrun & _).
  eexists _, st'. exact Hrun.
Qed.

Lemma sample_pass_ok :
  ∃ (rules : list string) (st : generator),
    generate sample_world sample_config init = Ok (rules, st).
Proof. apply sample_pass_from. Qed.

Lemma generate_rule_order_witness :
  ∃ (rules : list string) (st : generator),
    generate sample_world sample_config init = Ok (rules, st) ∧
    rule_headers rules = map rule_header (names_of_pass sample_config).
Proof.
  destruct sample_pass_ok as (rules & st & Hgen). exists rules, st.
  split; [exact Hgen|exact (proj1 (generate_rule_order _ _ _ _ Hgen))].
Defined.

Lemma generate_declares_each_rule_once_witness :
  ∃ (rules : list string) (st : generator),
    generate sample_world sample_config init = Ok (rules, st) ∧
    NoDup (rule_headers rules).
Proof.
  destruct sample_pass_ok as (rules & st & Hgen). exists rules, st.
  split; [exact Hgen|exact (proj1 (generate_declares_each_rule_once _ _ _ _ Hgen))].
Defined.

Lemma generate_only_appends_witness :
  ∃ (st0 st : generator) (rules : list string),
    declare sample_world copy_call init = Ok (tt, st0) ∧
    rules_buf st0 = block_of sample_world copy_call ∧
    "copy" ∈ all_rule_names st0 ∧
    generate sample_world sample_config st0 = Ok (rules, st) ∧
    block_of sample_world copy_call `prefix_of` rules ∧
    "copy" ∈ all_rule_names st.
Proof.
  eexists. destruct (sample_pass_from
                       {| rules_buf := rules_buf init ++ block_of sample_world copy_call;
                          all_rule_names := {[ "copy" ]} ∪ all_rule_names init |})
    as (rules & st & Hgen).
  exists st, rules.
  destruct (generate_only_appends _ _ _ _ _ Hgen) as (_ & Hprefix & Hnames).
  split; [apply declare_run|]. split; [reflexivity|].
  assert ("copy" ∈ ({[ "copy" ]} ∪ all_rule_names init : gset string)) as Hcopy
    by (apply elem_of_union_l, elem_of_singleton_2; reflexivity).
  split; [exact Hcopy|]. split; [exact Hgen|].
  split; [exact Hprefix|exact (Hnames _ Hcopy)].
Defined.

Lemma version_statements_use_declared_rules_witness :
  ∃ (rules : list string) (st : generator) (body : list string),
    generate sample_world sample_config init = Ok (rules, st) ∧
    rules = body ++ [scm_statement sample_world sample_config;
                     scm_object_statement sample_world].
Proof.
  destruct sample_pass_ok as (rules & st & Hgen).
  destruct (version_statements_use_declared_rules _ _ _ _ Hgen) as (body & Hbody & _).
  exists rules, st, body. split; [exact Hgen|exact Hbody].
Defined.

Lemma generate_declares_each_pool_once_witness :
  ∃ (rules : list string) (st : generator),
    generate sample_world sample_config init = Ok (rules, st) ∧
    pool_entries rules = pools_of_pass sample_world sample_config.
Proof.
  destruct sample_pass_ok as (rules & st & Hgen). exists rules, st.
  split; [exact Hgen|exact (proj1 (generate_declares_each_pool_once _ _ _ _ Hgen))].
Defined.

Lemma captured_lines_start_with_dot_witness :
  ". /usr/include/stdio.h" ∈ to_stdout (awk_run sample_diagnostics) ∧
  startswith "." (skip_blanks ". /usr/include/stdio.h") = true.
Proof.
  assert (". /usr/include/stdio.h" ∈ to_stdout (awk_run sample_diagnostics)) as Hin
    by (apply list_elem_of_In; vm_compute; left; reflexivity).
  split; [exact Hin|].
  exact (proj2 (proj2 (captured_lines_start_with_dot sample_diagnostics _ Hin))).
Defined.

Lemma generate_rule_ignores_empty_attributes_witness :
  truthy (Some "") = false ∧
  Forall (λ e, is_pool_assignment e = false)
    (rule_block sample_world "copy" "cp -f ${in} ${out}" (Some "COPY ${in} ${out}")
       None false (Some "") false None None None).
Proof.
  split; [reflexivity|].
  exact (proj2 (generate_rule_ignores_empty_attributes sample_world
                  "copy" "cp -f ${in} ${out}" (Some "COPY ${in} ${out}")
                  None false (Some "") false None None None init) eq_refl).
Defined.

Lemma generate_go_rules_by_mode_witness :
  go_module_enabled sample_config = true ∧
  go_module_relpath sample_config = Some "mod" ∧
  ∃ st' : generator, generate_go_rules sample_world sample_config init = Ok (tt, st').
Proof.
  split; [reflexivity|]. split; [reflexivity|]. eexists.
  exact (proj2 (proj2 (generate_go_rules_by_mode sample_world sample_config init
                         "/go" "go" eq_refl eq_refl eq_refl eq_refl))
           "mod" eq_refl eq_refl eq_refl).
Defined.

Lemma import_path_options_compose_witness :
  protoc_import_path_option (["thirdparty"] ++ ["build64_release"]) =
  protoc_import_path_option ["thirdparty"] +:+ " " +:+
  protoc_import_path_option ["build64_release"].
Proof.
  assert (["thirdparty"] ≠ ([] : list string)) as H1 by discriminate.
  assert (["build64_release"] ≠ ([] : list string)) as H2 by discriminate.
  exact (proj1 (proj2 (proj2 (proj2 (proj2
           (import_path_options_compose ["thirdparty"] ["build64_release"] "x"))))
           H1 H2)).
Defined.

Lemma thrift_label_is_rewritten_witness :
  startswith "//" (thrift_config_thrift sample_config) = false ∧
  (∃ st', generate_thrift_rules sample_world sample_config init = Ok (tt, st')) ∧
  thrift_config_thrift label_config = "//" +:+ "thirdparty/thrift:thrift" ∧
  generate_thrift_rules colon_world label_config init =
    Ok (tt, {| rules_buf := thrift_entries colon_world label_config
                              "out/dir/thirdparty/thrift/thrift";
               all_rule_names := {[ "thrift" ]} ∪ ∅ |}) ∧
  startswith "out:dir/" "out/dir/thirdparty/thrift/thrift" = false.
Proof.
  split; [reflexivity|].
  split; [eexists;
          exact (proj1 (thrift_label_is_rewritten sample_world sample_config init) eq_refl)|].
  split; [reflexivity|].
  destruct (proj2 (thrift_label_is_rewritten colon_world label_config init)
              "thirdparty/thrift:thrift" eq_refl) as (Hrun & _ & _ & Hstart).
  split; [exact Hrun|exact Hstart].
Defined.

Lemma generate_proto_rules_without_go_witness :
  truthy (protoc_go_plugin plain_config) = false ∧
  ∃ st' : generator, generate_proto_rules sample_world plain_config init = Ok (tt, st').
Proof.
  split; [reflexivity|].
  destruct (generate_proto_rules_without_go sample_world plain_config init eq_refl)
    as (java_protoc & java_incs & H & _).
  eexists. exact H.
Defined.

Lemma get_cc_flags_spec_witness :
  cc_debug_info_levels sample_config !! debug_info_level sample_config = Some ["-g"] ∧
  ∃ flags, _get_cc_flags sample_world sample_config init = Ok (flags, init).
Proof.
  split; [reflexivity|].
  destruct (get_cc_flags_spec sample_world sample_config init ["-g"] eq_refl)
    as (unfiltered & H & _).
  eexists. exact H.
Defined.

Lemma javac_version_flags_witness :
  java_source_version sample_config = None ∧
  java_target_version sample_config = None ∧
  truthy (java_version sample_config) = true ∧
  ∃ st' : generator, generate_javac_rules sample_world sample_config init = Ok (tt, st').
Proof.
  split; [reflexivity|]. split; [reflexivity|]. split; [reflexivity|].
  destruct (javac_version_flags sample_world sample_config init) as (versions & H & _).
  eexists. exact H.
Defined.
